(** * Multi-tenant quiz backend: a shallow embedding of [main.py]

    The request handlers of [main.py] are embedded as computations in a small
    state-and-exception monad over a SQLAlchemy-like session.  The relational
    store is a record of four tables (lists of rows in insertion order), the
    session carries the rows added but not yet committed, and each handler
    is run by [serve], which opens a session on the store, runs the handler
    and closes the session, dropping whatever was not committed.

    Conventions.
    - [str] values are [string]s whose characters stand for the code points
      0..255; [strip] and [lower] follow Python on that range.  Texts with
      code points above 255 are outside the model.
    - The store's [lower()], which [func.lower] makes the database
      evaluate, is a parameter ([func.lower]): it depends on the locale of
      the database and nothing is assumed about it, in particular not that
      it agrees with [str.lower].
    - The store refuses a text that holds the NUL character, as a bound
      parameter of a query and as a column value of an insert; the
      exception is not caught and the request ends in a 500.
    - A query without [ORDER BY] returns rows in insertion order.
    - A generated key is one more than the largest key of its table; keys
      stay below the end of the store's sequence.
    - [hashlib.sha256(..).hexdigest()] is a parameter of the development. *)

From Stdlib Require Import ZArith String Ascii List Bool Lia DecimalString.
From stdpp Require Import base option list strings gmap.

Open Scope string_scope.
Open Scope Z_scope.

(** ** Python string operations *)

Module Str.

(** [str.isspace] on a single character. *)
Definition isspace (c : ascii) : bool :=
  let n := N_of_ascii c in
  (((9 <=? n) && (n <=? 13)) || ((28 <=? n) && (n <=? 32))
   || (n =? 133) || (n =? 160))%N.

(** [str.lower] on a single character. *)
Definition lower_char (c : ascii) : ascii :=
  let n := N_of_ascii c in
  if (((65 <=? n) && (n <=? 90))
      || ((192 <=? n) && (n <=? 222) && negb (n =? 215)))%N
  then ascii_of_N (n + 32) else c.

Fixpoint lower (s : string) : string :=
  match s with
  | EmptyString => EmptyString
  | String c s' => String (lower_char c) (lower s')
  end.

Fixpoint lstrip (s : string) : string :=
  match s with
  | EmptyString => EmptyString
  | String c s' => if isspace c then lstrip s' else s
  end.

Fixpoint rstrip (s : string) : string :=
  match s with
  | EmptyString => EmptyString
  | String c s' =>
      match rstrip s' with
      | EmptyString => if isspace c then EmptyString else String c EmptyString
      | r => String c r
      end
  end.

Definition strip (s : string) : string := rstrip (lstrip s).

(** A string made of whitespace only. *)
Fixpoint blank (s : string) : bool :=
  match s with
  | EmptyString => true
  | String c s' => isspace c && blank s'
  end.

(** [str(n)] for an integer. *)
Definition of_int (z : Z) : string := NilEmpty.string_of_int (Z.to_int z).

(** ['\x00' in s]. *)
Fixpoint has_nul (s : string) : bool :=
  match s with
  | EmptyString => false
  | String c s' => (N_of_ascii c =? 0)%N || has_nul s'
  end.

End Str.

(** ** SQL functions evaluated by the store *)

Module func.

(** [func.lower(column)]: the [lower()] of the database. *)
Class Sql := { lower : string -> string }.

End func.

(** ** The tables of [models.py] *)

Module models.

Module Tenant.
Record t := mk { id : Z; name : string; display_name : string }.
End Tenant.

Module User.
Record t := mk { id : Z; username : string; password : string; tenant_id : Z }.
End User.

Module Question.
Record t := mk { id : Z; question : string; answer : bool; tenant_id : Z }.
End Question.

Module QuizSubmission.
Record t :=
  mk { id : Z; answers : list bool; score : Z; user_id : Z; tenant_id : Z }.
End QuizSubmission.

End models.

(** The committed contents of the database, one list of rows per table. *)
Record DB := mkDB {
  tenants : list models.Tenant.t;
  users : list models.User.t;
  questions : list models.Question.t;
  quiz_submissions : list models.QuizSubmission.t
}.

Definition empty_db : DB := mkDB [] [] [] [].

(** ** The request bodies (pydantic models of [main.py]) *)

Module QuestionCreate.
Record t := mk { question : string; answer : bool }.
End QuestionCreate.

Module QuizSubmission.
Record t := mk { username : string; answers : list bool }.
End QuizSubmission.

Module AuthRequest.
Record t := mk { username : string; password : string; tenant : string }.
End AuthRequest.

Module TenantCreate.
Record t := mk { name : string; display_name : string }.
End TenantCreate.

(** ** Response bodies *)

#[warnings="-register-all"]
Inductive json :=
| JInt (z : Z)
| JStr (s : string)
| JBool (b : bool)
| JList (l : list json)
| JDict (items : list (string * json)).

(** The keys of a response object, in order. *)
Definition keys (j : json) : list string :=
  match j with
  | JDict items => map fst items
  | _ => []
  end.

(** [j[k]] for a response object. *)
Fixpoint assoc (k : string) (items : list (string * json)) : option json :=
  match items with
  | [] => None
  | (k', v) :: rest => if String.eqb k k' then Some v else assoc k rest
  end.

Definition field (k : string) (j : json) : option json :=
  match j with
  | JDict items => assoc k items
  | _ => None
  end.

(** ** Sessions, exceptions and the handler monad *)

Inductive exn :=
| HTTPException (status_code : Z) (detail : string)
| KeyError (key : string)
| IntegrityError
| StatementError
| InvalidRequestError.

(** A row handed to [db.add]: the column values, the primary key is still
    to be generated. *)
Inductive pending_row :=
| NewTenant (name display_name : string)
| NewUser (username password : string) (tenant_id : Z)
| NewQuestion (question : string) (answer : bool) (tenant_id : Z)
| NewQuizSubmission (answers : list bool) (score : Z) (user_id tenant_id : Z).

Record Session := mkSession {
  store : DB;
  pending : list pending_row;
  log : list string
}.

Definition M (A : Type) : Type := Session -> (exn + A) * Session.

#[global] Instance M_ret : MRet M := fun A a s => (inr a, s).

#[global] Instance M_bind : MBind M := fun A B f m s =>
  match m s with
  | (inl e, s') => (inl e, s')
  | (inr a, s') => f a s'
  end.

Definition raise {A} (e : exn) : M A := fun s => (inl e, s).

Fixpoint for_each {A} (l : list A) (body : A -> M unit) : M unit :=
  match l with
  | [] => mret tt
  | x :: rest => body x;; for_each rest body
  end.

(** *** Queries: [db.query(T).filter(p)] followed by [first], [all], [count]

    [bound] lists the texts the filter binds as parameters; the statement
    is refused when one of them holds a NUL character. *)

Definition refused (bound : list string) : bool := existsb Str.has_nul bound.

Definition query_first {A} (table : DB -> list A) (bound : list string)
    (p : A -> bool) : M (option A) :=
  fun s =>
    if refused bound then (inl StatementError, s)
    else (inr (List.find p (table (store s))), s).

Definition query_all {A} (table : DB -> list A) (bound : list string)
    (p : A -> bool) : M (list A) :=
  fun s =>
    if refused bound then (inl StatementError, s)
    else (inr (List.filter p (table (store s))), s).

Definition query_count {A} (table : DB -> list A) (bound : list string)
    (p : A -> bool) : M Z :=
  fun s =>
    if refused bound then (inl StatementError, s)
    else (inr (Z.of_nat (length (List.filter p (table (store s))))), s).

(** *** Writes: [db.add], [db.commit], [db.refresh] *)

Definition db_add (r : pending_row) : M unit :=
  fun s => (inr tt, mkSession (store s) (pending s ++ [r]) (log s)).

(** The next value of a serial primary key.  Rows are never deleted, so it
    is one more than the largest key in the table. *)
Definition next_id {A} (id : A -> Z) (table : list A) : Z :=
  1 + fold_right Z.max 0 (map id table).

(** [UNIQUE (name)] on [tenants]. *)
Definition tenant_name_taken (n : string) (d : DB) : bool :=
  existsb (fun t => String.eqb (models.Tenant.name t) n) (tenants d).

(** [UNIQUE (username, tenant_id)] on [users]. *)
Definition user_tenant_taken (u : string) (tid : Z) (d : DB) : bool :=
  existsb (fun x => String.eqb (models.User.username x) u
                    && (models.User.tenant_id x =? tid)%Z) (users d).

(** INSERT of one row: the generated key and the new table contents, or
    the exception when the row is refused: a text column that holds a NUL
    character, or a uniqueness constraint. *)
Definition insert_row (r : pending_row) (d : DB) : exn + Z * DB :=
  match r with
  | NewTenant n dn =>
      if refused [n; dn] then inl StatementError
      else if tenant_name_taken n d then inl IntegrityError
      else
        let i := next_id models.Tenant.id (tenants d) in
        inr (i, mkDB (tenants d ++ [models.Tenant.mk i n dn])
                     (users d) (questions d) (quiz_submissions d))
  | NewUser u p tid =>
      if refused [u; p] then inl StatementError
      else if user_tenant_taken u tid d then inl IntegrityError
      else
        let i := next_id models.User.id (users d) in
        inr (i, mkDB (tenants d) (users d ++ [models.User.mk i u p tid])
                     (questions d) (quiz_submissions d))
  | NewQuestion q a tid =>
      if refused [q] then inl StatementError
      else
        let i := next_id models.Question.id (questions d) in
        inr (i, mkDB (tenants d) (users d)
                     (questions d ++ [models.Question.mk i q a tid])
                     (quiz_submissions d))
  | NewQuizSubmission ans sc uid tid =>
      let i := next_id models.QuizSubmission.id (quiz_submissions d) in
      inr (i, mkDB (tenants d) (users d) (questions d)
                   (quiz_submissions d
                      ++ [models.QuizSubmission.mk i ans sc uid tid]))
  end.

(** The flush of the pending rows, in the order they were added. *)
Fixpoint flush (rows : list pending_row) (d : DB) : exn + list Z * DB :=
  match rows with
  | [] => inr ([], d)
  | r :: rest =>
      match insert_row r d with
      | inl e => inl e
      | inr (i, d') =>
          match flush rest d' with
          | inl e => inl e
          | inr (ids, d'') => inr (i :: ids, d'')
          end
      end
  end.

(** [db.commit()]: one transaction.  It yields the keys generated for the
    flushed rows; a refused row rolls the whole transaction back. *)
Definition db_commit : M (list Z) :=
  fun s =>
    match flush (pending s) (store s) with
    | inr (ids, d) => (inr ids, mkSession d [] (log s))
    | inl e => (inl e, mkSession (store s) [] (log s))
    end.

(** [db.refresh(new_tenant)]: the row is read back by primary key. *)
Definition db_refresh_tenant (i : Z) : M models.Tenant.t :=
  fun s =>
    match List.find (fun t => (models.Tenant.id t =? i)%Z) (tenants (store s)) with
    | Some t => (inr t, s)
    | None => (inl InvalidRequestError, s)
    end.

Definition logger_info (line : string) : M unit :=
  fun s => (inr tt, mkSession (store s) (pending s) (log s ++ [line])).

(** [d[k]] on a request dictionary. *)
Definition getitem {V} (d : gmap string V) (k : string) : M V :=
  match d !! k with
  | Some v => mret v
  | None => raise (KeyError k)
  end.

(** *** Serving one request *)

Inductive Response :=
| Ok (body : json)
| Error (status_code : Z) (detail : string).

Record Outcome := mkOutcome {
  response : Response;
  db_after : DB;
  logged : list string
}.

(** [get_db] opens a session on the store and closes it when the handler
    is done; an [HTTPException] becomes its status and detail, any other
    exception is a 500. *)
Definition serve (handler : M json) (db : DB) : Outcome :=
  match handler (mkSession db [] []) with
  | (inr body, s) => mkOutcome (Ok body) (store s) (log s)
  | (inl (HTTPException c d), s) => mkOutcome (Error c d) (store s) (log s)
  | (inl _, s) => mkOutcome (Error 500 "Internal Server Error") (store s) (log s)
  end.

(** ** The handlers of [main.py] *)

Section Handlers.

(** The store the handlers talk to. *)
Context {sql : func.Sql}.

(** [hashlib.sha256(b).hexdigest()] applied to the encoded password. *)
Variable sha256_hexdigest : string -> string.

Definition hash_password (password : string) : string :=
  sha256_hexdigest password.

(** The filter [func.lower(models.Tenant.name) == n]. *)
Definition tenant_named (n : string) (t : models.Tenant.t) : bool :=
  String.eqb (func.lower (models.Tenant.name t)) n.

(** The filter [func.lower(models.User.username) == n,
    models.User.tenant_id == tid]. *)
Definition user_named (n : string) (tid : Z) (u : models.User.t) : bool :=
  String.eqb (func.lower (models.User.username u)) n
  && (models.User.tenant_id u =? tid)%Z.

(** The filter [models.Question.tenant_id == tid]. *)
Definition question_of (tid : Z) (q : models.Question.t) : bool :=
  (models.Question.tenant_id q =? tid)%Z.

Definition health_check : M json :=
  mret (JDict [("status", JStr "healthy")]).

Definition create_tenant (tenant : TenantCreate.t) : M json :=
  let tenant_name := Str.lower (Str.strip (TenantCreate.name tenant)) in
  db_tenant ← query_first tenants [tenant_name] (tenant_named tenant_name);
  match db_tenant with
  | Some _ =>
      raise (HTTPException 400
               ("Tenant '" +:+ TenantCreate.name tenant +:+ "' already exists"))
  | None =>
      db_add (NewTenant (Str.strip (TenantCreate.name tenant))
                        (Str.strip (TenantCreate.display_name tenant)));;
      ids ← db_commit;
      new_tenant ← db_refresh_tenant (hd 0 ids);
      mret (JDict [("message", JStr "Tenant created successfully");
                   ("tenant_id", JInt (models.Tenant.id new_tenant));
                   ("name", JStr (models.Tenant.name new_tenant))])
  end.

Definition check_tenant (tenant_name : string) : M json :=
  tenant ← query_first tenants [Str.lower (Str.strip tenant_name)]
             (tenant_named (Str.lower (Str.strip tenant_name)));
  mret (JDict [("exists", JBool (bool_decide (tenant ≠ None)))]).

Definition signup (auth : AuthRequest.t) : M json :=
  let tenant_name := Str.lower (Str.strip (AuthRequest.tenant auth)) in
  let username := Str.strip (AuthRequest.username auth) in
  tenant ← query_first tenants [tenant_name] (tenant_named tenant_name);
  match tenant with
  | None => raise (HTTPException 404 "Tenant not found")
  | Some tenant =>
      existing_user ← query_first users [Str.lower username]
        (user_named (Str.lower username) (models.Tenant.id tenant));
      match existing_user with
      | Some _ =>
          raise (HTTPException 400 "Username already exists in this tenant")
      | None =>
          db_add (NewUser username
                    (hash_password (Str.strip (AuthRequest.password auth)))
                    (models.Tenant.id tenant));;
          db_commit;;
          mret (JDict [("message", JStr "Signup successful");
                       ("tenant", JStr (models.Tenant.name tenant));
                       ("username", JStr username)])
      end
  end.

Definition login (auth : AuthRequest.t) : M json :=
  let tenant_name := Str.lower (Str.strip (AuthRequest.tenant auth)) in
  let username := Str.strip (AuthRequest.username auth) in
  tenant ← query_first tenants [tenant_name] (tenant_named tenant_name);
  match tenant with
  | None => raise (HTTPException 404 "Tenant not found")
  | Some tenant =>
      user ← query_first users [Str.lower username]
        (user_named (Str.lower username) (models.Tenant.id tenant));
      match user with
      | None => raise (HTTPException 401 "Invalid credentials")
      | Some user =>
          if negb (String.eqb (models.User.password user)
                     (hash_password (Str.strip (AuthRequest.password auth))))
          then raise (HTTPException 401 "Invalid credentials")
          else
            logger_info ("Successful login - Tenant: "
                         +:+ models.Tenant.name tenant
                         +:+ " | User: " +:+ username);;
            mret (JDict [("message", JStr "Login successful")])
      end
  end.

Definition set_questions
    (tenant : string) (payload : gmap string (list QuestionCreate.t))
  : M json :=
  db_tenant ← query_first tenants [Str.lower (Str.strip tenant)]
                (tenant_named (Str.lower (Str.strip tenant)));
  match db_tenant with
  | None => raise (HTTPException 404 "Tenant not found")
  | Some db_tenant =>
      existing_questions ← query_count questions []
        (question_of (models.Tenant.id db_tenant));
      if 0 <? existing_questions then
        questions ← query_all questions []
          (question_of (models.Tenant.id db_tenant));
        mret (JDict
          [("message", JStr "Questions already exist for this tenant");
           ("questions",
            JList (map (fun q =>
                     JDict [("id", JInt (models.Question.id q));
                            ("question", JStr (models.Question.question q));
                            ("answer", JBool (models.Question.answer q))])
                     questions))])
      else
        new_questions ← getitem payload "questions";
        for_each new_questions (fun q =>
          db_add (NewQuestion (Str.strip (QuestionCreate.question q))
                              (QuestionCreate.answer q)
                              (models.Tenant.id db_tenant)));;
        db_commit;;
        logger_info ("Admin set questions - Tenant: "
                     +:+ models.Tenant.name db_tenant);;
        counted ← getitem payload "questions";
        mret (JDict
          [("message",
            JStr (Str.of_int (Z.of_nat (length counted))
                  +:+ " questions set for "
                  +:+ models.Tenant.name db_tenant))])
  end.

Definition get_questions (tenant : string) : M json :=
  db_tenant ← query_first tenants [Str.lower (Str.strip tenant)]
                (tenant_named (Str.lower (Str.strip tenant)));
  match db_tenant with
  | None => raise (HTTPException 404 "Tenant not found")
  | Some db_tenant =>
      questions ← query_all questions []
        (question_of (models.Tenant.id db_tenant));
      mret (JList (map (fun q =>
              JDict [("id", JInt (models.Question.id q));
                     ("question", JStr (models.Question.question q))])
              questions))
  end.

Definition get_admin_questions (tenant : string) : M json :=
  db_tenant ← query_first tenants [Str.lower (Str.strip tenant)]
                (tenant_named (Str.lower (Str.strip tenant)));
  match db_tenant with
  | None => raise (HTTPException 404 "Tenant not found")
  | Some db_tenant =>
      questions ← query_all questions []
        (question_of (models.Tenant.id db_tenant));
      mret (JList (map (fun q =>
              JDict [("id", JInt (models.Question.id q));
                     ("question", JStr (models.Question.question q));
                     ("answer", JBool (models.Question.answer q))])
              questions))
  end.

(** [enumerate(l)]. *)
Definition enumerate {A} (l : list A) : list (nat * A) :=
  combine (seq 0 (length l)) l.

(** [sum(1 for i, q in enumerate(questions)
         if i < len(answers) and q.answer == answers[i])]. *)
Definition calculate_score
    (questions : list models.Question.t) (answers : list bool) : Z :=
  fold_right Z.add 0
    (map (fun _ => 1)
       (List.filter
          (fun '(i, q) =>
             (i <? length answers)%nat
             && Bool.eqb (models.Question.answer q) (nth i answers false))
          (enumerate questions))).

Definition submit_quiz (tenant : string) (submission : QuizSubmission.t)
  : M json :=
  db_tenant ← query_first tenants [Str.lower (Str.strip tenant)]
                (tenant_named (Str.lower (Str.strip tenant)));
  match db_tenant with
  | None => raise (HTTPException 404 "Tenant not found")
  | Some db_tenant =>
      user ← query_first users
        [Str.lower (Str.strip (QuizSubmission.username submission))]
        (user_named (Str.lower (Str.strip (QuizSubmission.username submission)))
                    (models.Tenant.id db_tenant));
      match user with
      | None => raise (HTTPException 404 "User not found")
      | Some user =>
          questions ← query_all questions []
            (question_of (models.Tenant.id db_tenant));
          match questions with
          | [] => raise (HTTPException 404 "No questions found for this tenant")
          | _ =>
              let correct :=
                calculate_score questions (QuizSubmission.answers submission) in
              let total := Z.of_nat (length questions) in
              db_add (NewQuizSubmission (QuizSubmission.answers submission)
                        correct (models.User.id user)
                        (models.Tenant.id db_tenant));;
              db_commit;;
              logger_info ("Quiz submitted - Tenant: "
                           +:+ models.Tenant.name db_tenant
                           +:+ " | User: " +:+ models.User.username user
                           +:+ " | Score: " +:+ Str.of_int correct
                           +:+ "/" +:+ Str.of_int total);;
              mret (JDict
                [("message", JStr ("You scored " +:+ Str.of_int correct
                                   +:+ "/" +:+ Str.of_int total));
                 ("username", JStr (models.User.username user));
                 ("score", JInt correct);
                 ("total", JInt total)])
          end
      end
  end.

End Handlers.

(** ** What a request sees of the store *)

(** The tenant a name resolves to: what the first query of every handler
    returns; no tenant when the query finds none or is refused. *)
Definition resolve_tenant `{func.Sql} (db : DB) (name : string)
  : option models.Tenant.t :=
  if Str.has_nul (Str.lower (Str.strip name)) then None
  else List.find (tenant_named (Str.lower (Str.strip name))) (tenants db).

(** The user a username resolves to inside the tenant with key [tid]; no
    user when the query finds none or is refused. *)
Definition resolve_user `{func.Sql} (db : DB) (tid : Z) (username : string)
  : option models.User.t :=
  if Str.has_nul (Str.lower (Str.strip username)) then None
  else List.find (user_named (Str.lower (Str.strip username)) tid) (users db).

(** The question set of the tenant with key [tid], in insertion order. *)
Definition tenant_questions (db : DB) (tid : Z) : list models.Question.t :=
  List.filter (question_of tid) (questions db).

(** The rows [set_questions] adds for a request. *)
Fixpoint question_rows (tid : Z) (first : Z) (qs : list QuestionCreate.t)
  : list models.Question.t :=
  match qs with
  | [] => []
  | q :: rest =>
      models.Question.mk first (Str.strip (QuestionCreate.question q))
        (QuestionCreate.answer q) tid
      :: question_rows tid (first + 1) rest
  end.

(** ** The score, as the specification words it *)

(** The number of indices [i] in [0..n-1] that are within the bounds of the
    answers and at which the answer equals the [i]-th question's correct
    answer. *)
Definition matching_indices
    (qs : list models.Question.t) (answers : list bool) : Z :=
  Z.of_nat
    (length
       (List.filter
          (fun i =>
             match answers !! i, qs !! i with
             | Some a, Some q => Bool.eqb a (models.Question.answer q)
             | _, _ => false
             end)
          (seq 0 (length qs)))).

(** The same count by recursion on both lists at once. *)
Fixpoint score_rec (qs : list models.Question.t) (answers : list bool) : Z :=
  match qs, answers with
  | q :: qs', a :: answers' =>
      (if Bool.eqb (models.Question.answer q) a then 1 else 0)
      + score_rec qs' answers'
  | _, _ => 0
  end.

(** Two stores that differ at most in the correct answers of their
    questions. *)
Definition same_but_answer (q1 q2 : models.Question.t) : Prop :=
  models.Question.id q1 = models.Question.id q2
  /\ models.Question.question q1 = models.Question.question q2
  /\ models.Question.tenant_id q1 = models.Question.tenant_id q2.

Definition same_but_answers (db1 db2 : DB) : Prop :=
  tenants db1 = tenants db2
  /\ users db1 = users db2
  /\ quiz_submissions db1 = quiz_submissions db2
  /\ Forall2 same_but_answer (questions db1) (questions db2).

(** Two names that differ only in letter case and in leading or trailing
    whitespace: each is a core between two blank pads, and the cores agree
    once lower-cased. *)
Definition differ_only_in_case_and_padding (a b : string) : Prop :=
  exists la ca ra lb cb rb,
    a = la +:+ ca +:+ ra /\ b = lb +:+ cb +:+ rb
    /\ Str.blank la = true /\ Str.blank ra = true
    /\ Str.blank lb = true /\ Str.blank rb = true
    /\ Str.lower ca = Str.lower cb.

(** ** A small store to run the handlers on *)

(** A stand-in for the digest, used where a concrete one is needed. *)
Definition toy_digest (s : string) : string := "digest:" +:+ s.

(** The [lower()] of a database under the C locale: it changes the
    letters [A] to [Z] and nothing else. *)
Definition c_lower_char (c : ascii) : ascii :=
  let n := N_of_ascii c in
  if ((65 <=? n) && (n <=? 90))%N then ascii_of_N (n + 32) else c.

Fixpoint c_lower (s : string) : string :=
  match s with
  | EmptyString => EmptyString
  | String c s' => String (c_lower_char c) (c_lower s')
  end.

Definition c_locale : func.Sql := {| func.lower := c_lower |}.

(** The one-letter text U+00C9, a capital E with acute accent: [str.lower]
    gives U+00E9, [lower()] under the C locale leaves it. *)
Definition e_acute : string := String (ascii_of_N 201) EmptyString.

(** A text with a NUL character in the middle. *)
Definition with_nul : string :=
  String "x" (String (ascii_of_N 0) (String "y" EmptyString)).

Definition acme : models.Tenant.t := models.Tenant.mk 1 "Acme" "Acme Inc".
Definition globex : models.Tenant.t := models.Tenant.mk 2 "Globex" "Globex".

Definition alice : models.User.t :=
  models.User.mk 1 "Alice" (toy_digest "s3cret") 1.

Definition three_questions : list models.Question.t :=
  [models.Question.mk 1 "Q1" true 1;
   models.Question.mk 2 "Q2" false 1;
   models.Question.mk 3 "Q3" true 1].

(** Two tenants, nothing else. *)
Definition db_tenants : DB := mkDB [acme; globex] [] [] [].

(** Alice has signed up with Acme; no questions yet. *)
Definition db_alice : DB := mkDB [acme; globex] [alice] [] [].

(** Acme's questions are set. *)
Definition db_quiz : DB := mkDB [acme; globex] [alice] three_questions [].

(** The same store with every correct answer negated. *)
Definition db_quiz_flipped : DB :=
  mkDB [acme; globex] [alice]
    (map (fun q =>
            models.Question.mk (models.Question.id q)
              (models.Question.question q)
              (negb (models.Question.answer q))
              (models.Question.tenant_id q))
         three_questions)
    [].

(** ** The application: its routes *)

(** One constructor per route registered on [app], with the path and body
    parameters the handler receives. *)
Inductive request :=
| GetHealth
| PostTenantCreate (tenant : TenantCreate.t)
| GetTenantCheck (tenant_name : string)
| PostSignup (auth : AuthRequest.t)
| PostLogin (auth : AuthRequest.t)
| PostSetQuestions (tenant : string)
    (payload : gmap string (list QuestionCreate.t))
| GetStudentQuestions (tenant : string)
| GetAdminQuestions (tenant : string)
| PostSubmit (tenant : string) (submission : QuizSubmission.t).

(** The handler a request is routed to. *)
Definition route `{func.Sql} (digest : string -> string) (r : request)
  : M json :=
  match r with
  | GetHealth => health_check
  | PostTenantCreate tenant => create_tenant tenant
  | GetTenantCheck tenant_name => check_tenant tenant_name
  | PostSignup auth => signup digest auth
  | PostLogin auth => login digest auth
  | PostSetQuestions tenant payload => set_questions tenant payload
  | GetStudentQuestions tenant => get_questions tenant
  | GetAdminQuestions tenant => get_admin_questions tenant
  | PostSubmit tenant submission => submit_quiz tenant submission
  end.

(** The outcome of one request on a store. *)
Definition handle `{func.Sql} (digest : string -> string) (r : request)
    (db : DB) : Outcome :=
  serve (route digest r) db.

(** The store after a sequence of requests, served one after the other. *)
Fixpoint run `{func.Sql} (digest : string -> string) (rs : list request)
    (db : DB) : DB :=
  match rs with
  | [] => db
  | r :: rest => run digest rest (db_after (handle digest r db))
  end.

(** The requests that only read. *)
Definition read_only (r : request) : bool :=
  match r with
  | GetHealth | GetTenantCheck _ | PostLogin _
  | GetStudentQuestions _ | GetAdminQuestions _ => true
  | _ => false
  end.

(** ** Properties of a store *)

(** No two tenants have the same stored name: [UNIQUE (name)]. *)
Definition names_unique (db : DB) : Prop :=
  List.NoDup (map models.Tenant.name (tenants db)).

(** No two users of one tenant have the same stored username:
    [UNIQUE (username, tenant_id)]. *)
Definition usernames_unique (db : DB) : Prop :=
  List.NoDup
    (map (fun u => (models.User.username u, models.User.tenant_id u))
         (users db)).

(** A text that holds no NUL character and on which the store's [lower()]
    gives what [str.lower] gives. *)
Definition plain `{func.Sql} (s : string) : Prop :=
  Str.has_nul s = false /\ func.lower s = Str.lower s.

(** A store whose names and usernames are plain, trimmed and unique up to
    letter case: tenant names among all tenants, usernames inside each
    tenant. *)
Definition plainly_named `{func.Sql} (db : DB) : Prop :=
  Forall (fun t => plain (models.Tenant.name t)
                   /\ Str.strip (models.Tenant.name t) = models.Tenant.name t)
         (tenants db)
  /\ Forall (fun u => plain (models.User.username u)
                      /\ Str.strip (models.User.username u)
                         = models.User.username u)
            (users db)
  /\ List.NoDup (map (fun t => Str.lower (models.Tenant.name t)) (tenants db))
  /\ List.NoDup
       (map (fun u => (Str.lower (models.User.username u),
                       models.User.tenant_id u)) (users db)).

(** A text without leading or trailing whitespace. *)
Definition trimmed (s : string) : Prop := Str.strip s = s.

(** Every stored name, display name, username and question text is
    trimmed. *)
Definition text_trimmed (db : DB) : Prop :=
  Forall (fun t => trimmed (models.Tenant.name t)
                   /\ trimmed (models.Tenant.display_name t)) (tenants db)
  /\ Forall (fun u => trimmed (models.User.username u)) (users db)
  /\ Forall (fun q => trimmed (models.Question.question q)) (questions db).

(** Every foreign key points to a row: users and questions to their
    tenant, submissions to a user of the tenant they name. *)
Definition references_ok (db : DB) : Prop :=
  Forall (fun u => exists t, In t (tenants db)
                             /\ models.Tenant.id t = models.User.tenant_id u)
         (users db)
  /\ Forall (fun q => exists t, In t (tenants db)
                        /\ models.Tenant.id t = models.Question.tenant_id q)
            (questions db)
  /\ Forall (fun s =>
               (exists t, In t (tenants db)
                  /\ models.Tenant.id t = models.QuizSubmission.tenant_id s)
               /\ exists u, In u (users db)
                    /\ models.User.id u = models.QuizSubmission.user_id s
                    /\ models.User.tenant_id u
                       = models.QuizSubmission.tenant_id s)
            (quiz_submissions db).

(** Every stored score lies between 0 and the number of answers stored
    with it. *)
Definition scores_bounded (db : DB) : Prop :=
  Forall (fun s =>
            0 <= models.QuizSubmission.score s
              <= Z.of_nat (length (models.QuizSubmission.answers s)))
         (quiz_submissions db).

(** What one request can do to the store: nothing, or append one tenant,
    one user, the question rows of one tenant, or one submission. *)
Inductive transition `{func.Sql} (db : DB) : DB -> Prop :=
| stays : transition db db
| adds_tenant name display_name :
    resolve_tenant db name = None ->
    tenant_name_taken (Str.strip name) db = false ->
    transition db
      (mkDB (tenants db
             ++ [models.Tenant.mk (next_id models.Tenant.id (tenants db))
                   (Str.strip name) (Str.strip display_name)])
            (users db) (questions db) (quiz_submissions db))
| adds_user tenant username password_digest :
    In tenant (tenants db) ->
    resolve_user db (models.Tenant.id tenant) username = None ->
    user_tenant_taken (Str.strip username) (models.Tenant.id tenant) db
    = false ->
    transition db
      (mkDB (tenants db)
            (users db
             ++ [models.User.mk (next_id models.User.id (users db))
                   (Str.strip username) password_digest
                   (models.Tenant.id tenant)])
            (questions db) (quiz_submissions db))
| adds_questions tenant new_questions :
    In tenant (tenants db) ->
    tenant_questions db (models.Tenant.id tenant) = [] ->
    transition db
      (mkDB (tenants db) (users db)
            (questions db
             ++ question_rows (models.Tenant.id tenant)
                  (next_id models.Question.id (questions db)) new_questions)
            (quiz_submissions db))
| adds_submission tenant user answers :
    In tenant (tenants db) ->
    In user (users db) ->
    models.User.tenant_id user = models.Tenant.id tenant ->
    transition db
      (mkDB (tenants db) (users db) (questions db)
            (quiz_submissions db
             ++ [models.QuizSubmission.mk
                   (next_id models.QuizSubmission.id (quiz_submissions db))
                   answers
                   (calculate_score
                      (tenant_questions db (models.Tenant.id tenant)) answers)
                   (models.User.id user) (models.Tenant.id tenant)])).

(** [db'] holds every row of [db], unchanged and in the same place, and
    possibly more rows after them. *)
Definition extends (db db' : DB) : Prop :=
  exists ts us qs ss,
    db' = mkDB (tenants db ++ ts) (users db ++ us) (questions db ++ qs)
               (quiz_submissions db ++ ss).

(** A response element without its [answer] entry. *)
Definition without_answer (j : json) : json :=
  match j with
  | JDict items =>
      JDict (List.filter (fun kv => negb (String.eqb (fst kv) "answer")) items)
  | _ => j
  end.

(** * Lemmas *)

Section Verification.

(** The store: any database, whatever its [lower()]. *)
Context {sql : func.Sql}.


(** ** Strings *)

Lemma isspace_lower_char c : Str.isspace (Str.lower_char c) = Str.isspace c.
Proof.
  destruct c as [[] [] [] [] [] [] [] []]; reflexivity.
Qed.

Lemma lstrip_lower s : Str.lstrip (Str.lower s) = Str.lower (Str.lstrip s).
Proof.
  induction s as [|c s IH]; simpl; [reflexivity|].
  rewrite isspace_lower_char. destruct (Str.isspace c); [exact IH | reflexivity].
Qed.

Lemma rstrip_lower s : Str.rstrip (Str.lower s) = Str.lower (Str.rstrip s).
Proof.
  induction s as [|c s IH]; simpl; [reflexivity|].
  rewrite IH, isspace_lower_char.
  destruct (Str.rstrip s); simpl; [destruct (Str.isspace c)|]; reflexivity.
Qed.

(** Trimming and lower-casing commute. *)
Lemma strip_lower s : Str.strip (Str.lower s) = Str.lower (Str.strip s).
Proof. unfold Str.strip. now rewrite lstrip_lower, rstrip_lower. Qed.

Lemma lstrip_blank_l w s : Str.blank w = true -> Str.lstrip (w +:+ s) = Str.lstrip s.
Proof.
  induction w as [|c w IH]; simpl; [reflexivity|].
  intros [Hc Hw]%andb_true_iff. rewrite Hc. auto.
Qed.

Lemma rstrip_blank w : Str.blank w = true -> Str.rstrip w = "".
Proof.
  induction w as [|c w IH]; simpl; [reflexivity|].
  intros [Hc Hw]%andb_true_iff. now rewrite (IH Hw), Hc.
Qed.

Lemma rstrip_blank_r s w : Str.blank w = true -> Str.rstrip (s +:+ w) = Str.rstrip s.
Proof.
  intros Hw. induction s as [|c s IH]; simpl.
  - now apply rstrip_blank.
  - now rewrite IH.
Qed.

Lemma lstrip_blank w : Str.blank w = true -> Str.lstrip w = "".
Proof.
  induction w as [|c w IH]; simpl; [reflexivity|].
  intros [Hc Hw]%andb_true_iff. rewrite Hc. auto.
Qed.

Lemma lstrip_app_r s w :
  Str.lstrip (s +:+ w) =
  if Str.blank s then Str.lstrip w else Str.lstrip s +:+ w.
Proof.
  induction s as [|c s IH]; simpl; [reflexivity|].
  destruct (Str.isspace c); simpl; [exact IH | reflexivity].
Qed.

(** Surrounding whitespace does not survive [strip]. *)
Lemma strip_pad l s r :
  Str.blank l = true -> Str.blank r = true ->
  Str.strip (l +:+ s +:+ r) = Str.strip s.
Proof.
  intros Hl Hr. unfold Str.strip.
  rewrite (lstrip_blank_l l _ Hl), lstrip_app_r.
  destruct (Str.blank s) eqn:Hs.
  - now rewrite (lstrip_blank r Hr), (lstrip_blank s Hs).
  - now apply rstrip_blank_r.
Qed.

(** ** Lists and queries *)

Lemma find_app {A} (p : A -> bool) (l1 l2 : list A) :
  List.find p (l1 ++ l2) =
  match List.find p l1 with
  | Some x => Some x
  | None => List.find p l2
  end.
Proof.
  induction l1 as [|x l1 IH]; simpl; [reflexivity|].
  destruct (p x); [reflexivity | exact IH].
Qed.

Lemma find_none_intro {A} (p : A -> bool) (l : list A) :
  (forall x, In x l -> p x = false) -> List.find p l = None.
Proof.
  induction l as [|x l IH]; simpl; intros Hall; [reflexivity|].
  rewrite (Hall x (or_introl eq_refl)). apply IH. intros y Hy. apply Hall. now right.
Qed.

Lemma existsb_false_intro {A} (p : A -> bool) (l : list A) :
  (forall x, In x l -> p x = false) -> existsb p l = false.
Proof.
  induction l as [|x l IH]; simpl; intros Hall; [reflexivity|].
  rewrite (Hall x (or_introl eq_refl)). apply IH. intros y Hy. apply Hall. now right.
Qed.

Lemma next_id_above {A} (id : A -> Z) (l : list A) (x : A) :
  In x l -> id x < next_id id l.
Proof.
  unfold next_id. induction l as [|y l IH]; simpl; [tauto|].
  intros [-> | Hx]; [lia | specialize (IH Hx); lia].
Qed.

Lemma fold_max_from (b : Z) (l : list Z) :
  0 <= b -> fold_right Z.max b l = Z.max b (fold_right Z.max 0 l).
Proof.
  intros Hb. induction l as [|y l IH]; simpl; [lia | rewrite IH; lia].
Qed.

Lemma next_id_snoc {A} (id : A -> Z) (l : list A) (x : A) :
  id x = next_id id l -> next_id id (l ++ [x]) = next_id id l + 1.
Proof.
  unfold next_id. intros Hx. rewrite map_app, fold_right_app. simpl.
  rewrite Hx. clear Hx.
  assert (0 <= fold_right Z.max 0 (map id l)) as Hpos
    by (induction l as [|y l IH]; simpl; lia).
  rewrite fold_max_from by lia. lia.
Qed.

(** Reading a row back by a freshly generated key finds that row. *)
Lemma find_fresh_tenant ts n dn :
  let new := models.Tenant.mk (next_id models.Tenant.id ts) n dn in
  List.find (fun t => models.Tenant.id t =? models.Tenant.id new) (ts ++ [new])
  = Some new.
Proof.
  intros new. rewrite find_app.
  rewrite (find_none_intro _ ts).
  - simpl. now rewrite Z.eqb_refl.
  - intros t Ht. apply Z.eqb_neq.
    pose proof (next_id_above models.Tenant.id ts t Ht). simpl. lia.
Qed.

(** ** The NUL character *)

Lemma isspace_not_nul c :
  Str.isspace c = true -> (N_of_ascii c =? 0)%N = false.
Proof.
  destruct c as [[] [] [] [] [] [] [] []]; vm_compute; intros H;
    first [reflexivity | discriminate H].
Qed.

Lemma lower_char_nul c :
  (N_of_ascii (Str.lower_char c) =? 0)%N = (N_of_ascii c =? 0)%N.
Proof. destruct c as [[] [] [] [] [] [] [] []]; reflexivity. Qed.

Lemma has_nul_lower s : Str.has_nul (Str.lower s) = Str.has_nul s.
Proof.
  induction s as [|c s IH]; simpl; [reflexivity|].
  now rewrite lower_char_nul, IH.
Qed.

Lemma has_nul_lstrip s : Str.has_nul (Str.lstrip s) = Str.has_nul s.
Proof.
  induction s as [|c s IH]; simpl; [reflexivity|].
  destruct (Str.isspace c) eqn:Hc; [|reflexivity].
  now rewrite IH, (isspace_not_nul c Hc).
Qed.

Lemma has_nul_rstrip s : Str.has_nul (Str.rstrip s) = Str.has_nul s.
Proof.
  induction s as [|c s IH]; [reflexivity|].
  change (Str.has_nul (String c s))
    with ((N_of_ascii c =? 0)%N || Str.has_nul s).
  rewrite <- IH. simpl Str.rstrip.
  destruct (Str.rstrip s) as [|d r]; [|reflexivity].
  destruct (Str.isspace c) eqn:Hc; simpl; [|reflexivity].
  now rewrite (isspace_not_nul c Hc).
Qed.

(** Trimming and lower-casing neither add nor remove a NUL character. *)
Lemma has_nul_strip s : Str.has_nul (Str.strip s) = Str.has_nul s.
Proof. unfold Str.strip. now rewrite has_nul_rstrip, has_nul_lstrip. Qed.

Lemma has_nul_key s : Str.has_nul (Str.lower (Str.strip s)) = Str.has_nul s.
Proof. now rewrite has_nul_lower, has_nul_strip. Qed.

(** ** What each handler does to a store

    One equation per handler: the response, the store and the log lines
    after the request, by cases on what the queries find and on what the
    store refuses. *)

Ltac run_handler :=
  unfold serve, mbind, M_bind, mret, M_ret, raise, query_first, query_all,
    query_count, db_add, db_commit, db_refresh_tenant, logger_info, refused;
  simpl; rewrite ?orb_false_r.

Lemma serve_create_tenant tenant db :
  serve (create_tenant tenant) db =
  match resolve_tenant db (TenantCreate.name tenant) with
  | Some _ =>
      mkOutcome
        (Error 400
           ("Tenant '" +:+ TenantCreate.name tenant +:+ "' already exists"))
        db []
  | None =>
      if Str.has_nul (Str.lower (Str.strip (TenantCreate.name tenant)))
         || Str.has_nul (Str.strip (TenantCreate.name tenant))
         || Str.has_nul (Str.strip (TenantCreate.display_name tenant))
         || tenant_name_taken (Str.strip (TenantCreate.name tenant)) db
      then mkOutcome (Error 500 "Internal Server Error") db []
      else
        let new_tenant :=
          models.Tenant.mk (next_id models.Tenant.id (tenants db))
            (Str.strip (TenantCreate.name tenant))
            (Str.strip (TenantCreate.display_name tenant)) in
        mkOutcome
          (Ok (JDict [("message", JStr "Tenant created successfully");
                      ("tenant_id", JInt (models.Tenant.id new_tenant));
                      ("name", JStr (models.Tenant.name new_tenant))]))
          (mkDB (tenants db ++ [new_tenant]) (users db) (questions db)
                (quiz_submissions db))
          []
  end.
Proof.
  unfold create_tenant, resolve_tenant. run_handler.
  destruct (Str.has_nul (Str.lower _)); [reflexivity|]. simpl.
  destruct (List.find _ (tenants db)) eqn:Hfind; [reflexivity|]. simpl.
  destruct (Str.has_nul (Str.strip (TenantCreate.name tenant)));
    [reflexivity|]. simpl.
  destruct (Str.has_nul (Str.strip (TenantCreate.display_name tenant)));
    [reflexivity|]. simpl.
  destruct (tenant_name_taken _ db); [reflexivity|]. simpl.
  pose proof (find_fresh_tenant (tenants db)
                (Str.strip (TenantCreate.name tenant))
                (Str.strip (TenantCreate.display_name tenant))) as Hfresh.
  simpl in Hfresh. rewrite Hfresh. reflexivity.
Qed.

Section HandlerEquations.

Variable sha256_hexdigest : string -> string.

Lemma serve_signup auth db :
  serve (signup sha256_hexdigest auth) db =
  match resolve_tenant db (AuthRequest.tenant auth) with
  | None =>
      if Str.has_nul (Str.lower (Str.strip (AuthRequest.tenant auth)))
      then mkOutcome (Error 500 "Internal Server Error") db []
      else mkOutcome (Error 404 "Tenant not found") db []
  | Some tenant =>
      match resolve_user db (models.Tenant.id tenant)
              (AuthRequest.username auth) with
      | Some _ =>
          mkOutcome (Error 400 "Username already exists in this tenant") db []
      | None =>
          if Str.has_nul (Str.lower (Str.strip (AuthRequest.username auth)))
             || Str.has_nul (Str.strip (AuthRequest.username auth))
             || Str.has_nul
                  (hash_password sha256_hexdigest
                     (Str.strip (AuthRequest.password auth)))
             || user_tenant_taken (Str.strip (AuthRequest.username auth))
                  (models.Tenant.id tenant) db
          then mkOutcome (Error 500 "Internal Server Error") db []
          else
            let new_user :=
              models.User.mk (next_id models.User.id (users db))
                (Str.strip (AuthRequest.username auth))
                (hash_password sha256_hexdigest
                   (Str.strip (AuthRequest.password auth)))
                (models.Tenant.id tenant) in
            mkOutcome
              (Ok (JDict [("message", JStr "Signup successful");
                          ("tenant", JStr (models.Tenant.name tenant));
                          ("username",
                           JStr (Str.strip (AuthRequest.username auth)))]))
              (mkDB (tenants db) (users db ++ [new_user]) (questions db)
                    (quiz_submissions db))
              []
      end
  end.
Proof.
  unfold signup, resolve_tenant, resolve_user. run_handler.
  destruct (Str.has_nul (Str.lower (Str.strip (AuthRequest.tenant auth))));
    [reflexivity|]. simpl.
  destruct (List.find _ (tenants db)) as [tenant|]; [|reflexivity]. simpl.
  destruct (Str.has_nul (Str.lower (Str.strip (AuthRequest.username auth))));
    [reflexivity|]. simpl.
  destruct (List.find _ (users db)) eqn:Hfind; [reflexivity|]. simpl.
  destruct (Str.has_nul (Str.strip (AuthRequest.username auth)));
    [reflexivity|]. simpl.
  destruct (Str.has_nul (hash_password _ _)); [reflexivity|]. simpl.
  destruct (user_tenant_taken _ _ db); reflexivity.
Qed.

Lemma serve_login auth db :
  serve (login sha256_hexdigest auth) db =
  match resolve_tenant db (AuthRequest.tenant auth) with
  | None =>
      if Str.has_nul (Str.lower (Str.strip (AuthRequest.tenant auth)))
      then mkOutcome (Error 500 "Internal Server Error") db []
      else mkOutcome (Error 404 "Tenant not found") db []
  | Some tenant =>
      match resolve_user db (models.Tenant.id tenant)
              (AuthRequest.username auth) with
      | None =>
          if Str.has_nul (Str.lower (Str.strip (AuthRequest.username auth)))
          then mkOutcome (Error 500 "Internal Server Error") db []
          else mkOutcome (Error 401 "Invalid credentials") db []
      | Some user =>
          if String.eqb (models.User.password user)
               (hash_password sha256_hexdigest
                  (Str.strip (AuthRequest.password auth)))
          then
            mkOutcome (Ok (JDict [("message", JStr "Login successful")])) db
              ["Successful login - Tenant: " +:+ models.Tenant.name tenant
               +:+ " | User: " +:+ Str.strip (AuthRequest.username auth)]
          else mkOutcome (Error 401 "Invalid credentials") db []
      end
  end.
Proof.
  unfold login, resolve_tenant, resolve_user. run_handler.
  destruct (Str.has_nul (Str.lower (Str.strip (AuthRequest.tenant auth))));
    [reflexivity|]. simpl.
  destruct (List.find _ (tenants db)) as [tenant|]; [|reflexivity]. simpl.
  destruct (Str.has_nul (Str.lower (Str.strip (AuthRequest.username auth))));
    [reflexivity|]. simpl.
  destruct (List.find _ (users db)) as [user|]; [|reflexivity]. simpl.
  destruct (String.eqb _ _); reflexivity.
Qed.

End HandlerEquations.

Lemma serve_get_questions tenant db :
  serve (get_questions tenant) db =
  match resolve_tenant db tenant with
  | None =>
      if Str.has_nul (Str.lower (Str.strip tenant))
      then mkOutcome (Error 500 "Internal Server Error") db []
      else mkOutcome (Error 404 "Tenant not found") db []
  | Some db_tenant =>
      mkOutcome
        (Ok (JList (map (fun q =>
               JDict [("id", JInt (models.Question.id q));
                      ("question", JStr (models.Question.question q))])
               (tenant_questions db (models.Tenant.id db_tenant)))))
        db []
  end.
Proof.
  unfold get_questions, resolve_tenant, tenant_questions. run_handler.
  destruct (Str.has_nul _); [reflexivity|]. simpl.
  destruct (List.find _ (tenants db)); reflexivity.
Qed.

Lemma serve_get_admin_questions tenant db :
  serve (get_admin_questions tenant) db =
  match resolve_tenant db tenant with
  | None =>
      if Str.has_nul (Str.lower (Str.strip tenant))
      then mkOutcome (Error 500 "Internal Server Error") db []
      else mkOutcome (Error 404 "Tenant not found") db []
  | Some db_tenant =>
      mkOutcome
        (Ok (JList (map (fun q =>
               JDict [("id", JInt (models.Question.id q));
                      ("question", JStr (models.Question.question q));
                      ("answer", JBool (models.Question.answer q))])
               (tenant_questions db (models.Tenant.id db_tenant)))))
        db []
  end.
Proof.
  unfold get_admin_questions, resolve_tenant, tenant_questions. run_handler.
  destruct (Str.has_nul _); [reflexivity|]. simpl.
  destruct (List.find _ (tenants db)); reflexivity.
Qed.

Lemma serve_submit_quiz tenant submission db :
  serve (submit_quiz tenant submission) db =
  match resolve_tenant db tenant with
  | None =>
      if Str.has_nul (Str.lower (Str.strip tenant))
      then mkOutcome (Error 500 "Internal Server Error") db []
      else mkOutcome (Error 404 "Tenant not found") db []
  | Some db_tenant =>
      match resolve_user db (models.Tenant.id db_tenant)
              (QuizSubmission.username submission) with
      | None =>
          if Str.has_nul
               (Str.lower (Str.strip (QuizSubmission.username submission)))
          then mkOutcome (Error 500 "Internal Server Error") db []
          else mkOutcome (Error 404 "User not found") db []
      | Some user =>
          match tenant_questions db (models.Tenant.id db_tenant) with
          | [] =>
              mkOutcome (Error 404 "No questions found for this tenant") db []
          | qs =>
              let correct :=
                calculate_score qs (QuizSubmission.answers submission) in
              let total := Z.of_nat (length qs) in
              mkOutcome
                (Ok (JDict
                   [("message", JStr ("You scored " +:+ Str.of_int correct
                                      +:+ "/" +:+ Str.of_int total));
                    ("username", JStr (models.User.username user));
                    ("score", JInt correct);
                    ("total", JInt total)]))
                (mkDB (tenants db) (users db) (questions db)
                   (quiz_submissions db
                    ++ [models.QuizSubmission.mk
                          (next_id models.QuizSubmission.id
                             (quiz_submissions db))
                          (QuizSubmission.answers submission) correct
                          (models.User.id user)
                          (models.Tenant.id db_tenant)]))
                ["Quiz submitted - Tenant: " +:+ models.Tenant.name db_tenant
                 +:+ " | User: " +:+ models.User.username user
                 +:+ " | Score: " +:+ Str.of_int correct
                 +:+ "/" +:+ Str.of_int total]
          end
      end
  end.
Proof.
  unfold submit_quiz, resolve_tenant, resolve_user, tenant_questions.
  run_handler.
  destruct (Str.has_nul (Str.lower (Str.strip tenant))); [reflexivity|]. simpl.
  destruct (List.find _ (tenants db)) as [db_tenant|]; [|reflexivity]. simpl.
  destruct (Str.has_nul (Str.lower _)); [reflexivity|]. simpl.
  destruct (List.find _ (users db)) as [user|]; [|reflexivity]. simpl.
  destruct (List.filter _ (questions db)); reflexivity.
Qed.

Lemma for_each_add {A} (row : A -> pending_row) (l : list A) (s : Session) :
  for_each l (fun x => db_add (row x)) s =
  (inr tt, mkSession (store s) (pending s ++ map row l) (log s)).
Proof.
  revert s. induction l as [|x l IH]; intros s; simpl.
  - unfold mret, M_ret. rewrite app_nil_r. now destruct s.
  - unfold mbind, M_bind, db_add at 1. rewrite IH. simpl.
    now rewrite <- app_assoc.
Qed.

(** The flush of a batch of questions stores them all, or, when one of the
    texts holds a NUL character, none. *)
Lemma flush_questions tid (qs : list QuestionCreate.t) db :
  flush (map (fun q => NewQuestion (Str.strip (QuestionCreate.question q))
                         (QuestionCreate.answer q) tid) qs) db =
  if existsb (fun q => Str.has_nul (Str.strip (QuestionCreate.question q))) qs
  then inl StatementError
  else
    let rows :=
      question_rows tid (next_id models.Question.id (questions db)) qs in
    inr (map models.Question.id rows,
         mkDB (tenants db) (users db) (questions db ++ rows)
              (quiz_submissions db)).
Proof.
  revert db. induction qs as [|q qs IH]; intros db; simpl.
  - rewrite app_nil_r. now destruct db.
  - unfold refused. simpl. rewrite orb_false_r.
    destruct (Str.has_nul (Str.strip (QuestionCreate.question q)));
      [reflexivity|]. simpl.
    rewrite IH. simpl.
    destruct (existsb _ qs); [reflexivity|].
    rewrite next_id_snoc by reflexivity. now rewrite <- app_assoc.
Qed.

Lemma serve_set_questions tenant payload db :
  serve (set_questions tenant payload) db =
  match resolve_tenant db tenant with
  | None =>
      if Str.has_nul (Str.lower (Str.strip tenant))
      then mkOutcome (Error 500 "Internal Server Error") db []
      else mkOutcome (Error 404 "Tenant not found") db []
  | Some db_tenant =>
      match tenant_questions db (models.Tenant.id db_tenant) with
      | [] =>
          match payload !! "questions" with
          | None => mkOutcome (Error 500 "Internal Server Error") db []
          | Some new_questions =>
              if existsb
                   (fun q => Str.has_nul (Str.strip (QuestionCreate.question q)))
                   new_questions
              then mkOutcome (Error 500 "Internal Server Error") db []
              else
                mkOutcome
                  (Ok (JDict
                     [("message",
                       JStr (Str.of_int (Z.of_nat (length new_questions))
                             +:+ " questions set for "
                             +:+ models.Tenant.name db_tenant))]))
                  (mkDB (tenants db) (users db)
                     (questions db
                      ++ question_rows (models.Tenant.id db_tenant)
                           (next_id models.Question.id (questions db))
                           new_questions)
                     (quiz_submissions db))
                  ["Admin set questions - Tenant: "
                   +:+ models.Tenant.name db_tenant]
          end
      | existing =>
          mkOutcome
            (Ok (JDict
               [("message", JStr "Questions already exist for this tenant");
                ("questions",
                 JList (map (fun q =>
                          JDict [("id", JInt (models.Question.id q));
                                 ("question",
                                  JStr (models.Question.question q));
                                 ("answer",
                                  JBool (models.Question.answer q))])
                          existing))]))
            db []
      end
  end.
Proof.
  unfold set_questions, resolve_tenant, tenant_questions.
  unfold serve, mbind, M_bind, mret, M_ret, raise, query_first, query_all,
    query_count, db_commit, logger_info, getitem, refused.
  simpl. rewrite ?orb_false_r.
  destruct (Str.has_nul _); [reflexivity|]. simpl.
  destruct (List.find _ (tenants db)) as [db_tenant|]; [|reflexivity]. simpl.
  destruct (List.filter _ (questions db)) as [|q0 existing] eqn:Hqs.
  - simpl.
    destruct (payload !! "questions") as [new_questions|]; [|reflexivity].
    unfold mret, M_ret. simpl.
    rewrite for_each_add. simpl. rewrite flush_questions.
    destruct (existsb _ new_questions); reflexivity.
  - simpl. rewrite Hqs. reflexivity.
Qed.

(** ** The score *)

Lemma filter_map_comm {A B} (f : A -> B) (p : B -> bool) (l : list A) :
  List.filter p (map f l) = map f (List.filter (fun x => p (f x)) l).
Proof.
  induction l as [|x l IH]; simpl; [reflexivity|].
  destruct (p (f x)); simpl; now rewrite IH.
Qed.

Lemma filter_ext_in {A} (p q : A -> bool) (l : list A) :
  (forall x, In x l -> p x = q x) -> List.filter p l = List.filter q l.
Proof.
  induction l as [|x l IH]; simpl; intros Hpq; [reflexivity|].
  rewrite (Hpq x (or_introl eq_refl)), IH; [reflexivity|].
  intros y Hy. apply Hpq. now right.
Qed.

Lemma combine_seq_shift {A} (k : nat) (l : list A) :
  combine (seq (S k) (length l)) l =
  map (fun p => (S (fst p), snd p)) (combine (seq k (length l)) l).
Proof.
  revert k. induction l as [|x l IH]; intros k; simpl; [reflexivity|].
  f_equal. apply IH.
Qed.

Lemma sum_ones_length {A} (l : list A) :
  fold_right Z.add 0 (map (fun _ => 1) l) = Z.of_nat (length l).
Proof. induction l as [|x l IH]; simpl length; simpl; [reflexivity | lia]. Qed.

Lemma score_rec_nil_r qs : score_rec qs [] = 0.
Proof. now destruct qs. Qed.

(** The sum of [main.py] peels off one question and one answer at a time. *)
Lemma calculate_score_rec qs answers :
  calculate_score qs answers = score_rec qs answers.
Proof.
  unfold calculate_score, enumerate.
  revert answers. induction qs as [|q qs IH]; intros answers; [reflexivity|].
  simpl length. simpl seq. simpl combine. rewrite combine_seq_shift.
  simpl List.filter. rewrite filter_map_comm.
  destruct answers as [|a answers].
  - simpl. clear IH. now induction (combine _ _).
  - specialize (IH answers). simpl score_rec. rewrite <- IH. clear IH.
    simpl fst. simpl snd. simpl nth at 1. simpl length. simpl Nat.ltb at 1.
    rewrite (filter_ext_in _
      (fun '(i, q0) =>
         (i <? length answers)%nat
         && Bool.eqb (models.Question.answer q0) (nth i answers false)))
      by (now intros [i x] _).
    destruct (Bool.eqb (models.Question.answer q) a); simpl;
      rewrite !map_map; simpl; lia.
Qed.

(** So does the count of matching indices. *)
Lemma matching_indices_rec qs answers :
  matching_indices qs answers = score_rec qs answers.
Proof.
  unfold matching_indices.
  revert answers. induction qs as [|q qs IH]; intros answers; [reflexivity|].
  simpl length. simpl seq. rewrite <- seq_shift.
  destruct answers as [|a answers].
  - simpl. clear IH. now induction (map S _).
  - specialize (IH answers). simpl score_rec. rewrite <- IH. clear IH.
    simpl List.filter. rewrite !filter_map_comm. simpl.
    replace (Bool.eqb a (models.Question.answer q))
      with (Bool.eqb (models.Question.answer q) a)
      by (now destruct a, (models.Question.answer q)).
    destruct (Bool.eqb (models.Question.answer q) a);
      simpl length; rewrite length_map; lia.
Qed.

Lemma score_rec_ignores_extra qs answers :
  score_rec qs (firstn (length qs) answers) = score_rec qs answers.
Proof.
  revert answers. induction qs as [|q qs IH]; intros [|a answers]; simpl;
    try reflexivity.
  now rewrite IH.
Qed.

Lemma score_rec_over_prefix qs answers :
  score_rec (firstn (length answers) qs) answers = score_rec qs answers.
Proof.
  revert answers. induction qs as [|q qs IH]; intros [|a answers]; simpl;
    try reflexivity.
  now rewrite IH.
Qed.

Lemma score_rec_bounds qs answers :
  0 <= score_rec qs answers <= Z.of_nat (Nat.min (length qs) (length answers)).
Proof.
  revert answers. induction qs as [|q qs IH]; intros [|a answers]; simpl;
    try lia.
  specialize (IH answers). destruct (Bool.eqb _ _); lia.
Qed.

(** * The claims *)

(** ** Quiz scorer *)

(** C1: for a tenant with a non-empty question set of length [n] and any
    submitted list of answers, [submit_quiz] answers with the score being
    the number of indices [i < n] that are within the bounds of the answers
    and at which the answer equals the [i]-th question's correct answer,
    together with [total = n]; the request does not fail whatever the
    length of the answers; answers beyond [n] do not change the score, and
    a shorter list is scored over the questions it covers. *)
Theorem submit_quiz_counts_matching_indices
    tenant submission db db_tenant user :
  resolve_tenant db tenant = Some db_tenant ->
  resolve_user db (models.Tenant.id db_tenant)
    (QuizSubmission.username submission) = Some user ->
  tenant_questions db (models.Tenant.id db_tenant) <> [] ->
  let qs := tenant_questions db (models.Tenant.id db_tenant) in
  let answers := QuizSubmission.answers submission in
  let score := matching_indices qs answers in
  let total := Z.of_nat (length qs) in
  response (serve (submit_quiz tenant submission) db) =
    Ok (JDict [("message", JStr ("You scored " +:+ Str.of_int score
                                 +:+ "/" +:+ Str.of_int total));
               ("username", JStr (models.User.username user));
               ("score", JInt score);
               ("total", JInt total)])
  /\ calculate_score qs answers = score
  /\ matching_indices qs (firstn (length qs) answers) = score
  /\ matching_indices (firstn (length answers) qs) answers = score
  /\ 0 <= score <= Z.of_nat (Nat.min (length qs) (length answers)).
Proof.
  intros Htenant Huser Hqs qs answers score total.
  assert (calculate_score qs answers = score) as Hscore
    by (unfold score; now rewrite calculate_score_rec, matching_indices_rec).
  repeat split.
  - rewrite serve_submit_quiz, Htenant, Huser. fold qs.
    destruct qs as [|q qs'] eqn:Eqs; [contradiction|].
    simpl response. fold answers. rewrite Hscore. reflexivity.
  - exact Hscore.
  - unfold score. rewrite !matching_indices_rec. apply score_rec_ignores_extra.
  - unfold score. rewrite !matching_indices_rec. apply score_rec_over_prefix.
  - unfold score. rewrite matching_indices_rec. apply score_rec_bounds.
  - unfold score. rewrite matching_indices_rec. apply score_rec_bounds.
Qed.

(** C6: for a tenant whose question set is empty and a user that exists in
    it, [submit_quiz] fails with 404 and leaves the store as it was: no
    submission row is created. *)
Theorem submit_quiz_without_questions tenant submission db db_tenant user :
  resolve_tenant db tenant = Some db_tenant ->
  resolve_user db (models.Tenant.id db_tenant)
    (QuizSubmission.username submission) = Some user ->
  tenant_questions db (models.Tenant.id db_tenant) = [] ->
  let out := serve (submit_quiz tenant submission) db in
  response out = Error 404 "No questions found for this tenant"
  /\ db_after out = db
  /\ quiz_submissions (db_after out) = quiz_submissions db.
Proof.
  intros Htenant Huser Hqs out. unfold out.
  rewrite serve_submit_quiz, Htenant, Huser, Hqs. now repeat split.
Qed.

(** ** Question bank: the two views *)

Lemma same_but_answers_student_view tid l1 l2 :
  Forall2 same_but_answer l1 l2 ->
  map (fun q => JDict [("id", JInt (models.Question.id q));
                       ("question", JStr (models.Question.question q))])
      (List.filter (question_of tid) l1) =
  map (fun q => JDict [("id", JInt (models.Question.id q));
                       ("question", JStr (models.Question.question q))])
      (List.filter (question_of tid) l2).
Proof.
  induction 1 as [|q1 q2 l1 l2 (Hid & Htext & Htid) _ IH]; [reflexivity|].
  assert (question_of tid q1 = question_of tid q2) as Hsame
    by (unfold question_of; now rewrite Htid).
  simpl List.filter. rewrite Hsame.
  destruct (question_of tid q2); [|exact IH].
  simpl map. now rewrite IH, Hid, Htext.
Qed.

(** C7: for an existing tenant, every element of the student view has
    exactly the keys [id] and [question] and no [answer]; the student view
    is the same in two stores that differ only in the questions' correct
    answers; every element of the admin view carries the [answer] of its
    question. *)
Theorem student_view_hides_answers tenant db db_tenant :
  resolve_tenant db tenant = Some db_tenant ->
  let qs := tenant_questions db (models.Tenant.id db_tenant) in
  (exists items,
      response (serve (get_questions tenant) db) = Ok (JList items)
      /\ Forall2 (fun q j =>
                    keys j = ["id"; "question"]
                    /\ field "id" j = Some (JInt (models.Question.id q))
                    /\ field "question" j
                       = Some (JStr (models.Question.question q))
                    /\ field "answer" j = None) qs items)
  /\ (forall db',
         same_but_answers db db' ->
         serve (get_questions tenant) db' =
         mkOutcome (response (serve (get_questions tenant) db)) db' [])
  /\ (exists items,
         response (serve (get_admin_questions tenant) db) = Ok (JList items)
         /\ Forall2 (fun q j =>
                       keys j = ["id"; "question"; "answer"]
                       /\ field "answer" j
                          = Some (JBool (models.Question.answer q)))
              qs items).
Proof.
  intros Htenant qs. split; [|split].
  - eexists. rewrite serve_get_questions, Htenant. split; [reflexivity|].
    fold qs. induction qs; constructor; auto.
  - intros db' (Hts & _ & _ & Hqs).
    rewrite !serve_get_questions. unfold resolve_tenant in *.
    rewrite <- Hts, Htenant. simpl. unfold tenant_questions.
    now rewrite (same_but_answers_student_view _ _ _ Hqs).
  - eexists. rewrite serve_get_admin_questions, Htenant. split; [reflexivity|].
    fold qs. induction qs; constructor; auto.
Qed.

(** ** Names and what they resolve to *)

(** Names that differ only in case and padding normalise to the same key. *)
Lemma differ_only_same_key a b :
  differ_only_in_case_and_padding a b ->
  Str.lower (Str.strip a) = Str.lower (Str.strip b).
Proof.
  intros (la & ca & ra & lb & cb & rb & -> & -> & Hla & Hra & Hlb & Hrb & Hc).
  rewrite !strip_pad by assumption. rewrite <- !strip_lower. now rewrite Hc.
Qed.

Lemma resolve_tenant_same_key db a b :
  Str.lower (Str.strip a) = Str.lower (Str.strip b) ->
  resolve_tenant db a = resolve_tenant db b.
Proof. unfold resolve_tenant. now intros ->. Qed.

Lemma resolve_user_same_key db tid a b :
  Str.lower (Str.strip a) = Str.lower (Str.strip b) ->
  resolve_user db tid a = resolve_user db tid b.
Proof. unfold resolve_user. now intros ->. Qed.

(** A name that resolves holds no NUL character. *)
Lemma resolve_tenant_nul db name t :
  resolve_tenant db name = Some t ->
  Str.has_nul (Str.lower (Str.strip name)) = false.
Proof.
  unfold resolve_tenant. now destruct (Str.has_nul _).
Qed.

Lemma resolve_user_nul db tid name u :
  resolve_user db tid name = Some u ->
  Str.has_nul (Str.lower (Str.strip name)) = false.
Proof.
  unfold resolve_user. now destruct (Str.has_nul _).
Qed.

Lemma resolve_tenant_in db name t :
  resolve_tenant db name = Some t ->
  In t (tenants db)
  /\ func.lower (models.Tenant.name t) = Str.lower (Str.strip name).
Proof.
  unfold resolve_tenant. destruct (Str.has_nul _); [discriminate|].
  intros [Hin Hp]%find_some. split; [exact Hin|].
  now apply String.eqb_eq.
Qed.

Lemma resolve_user_in db tid name u :
  resolve_user db tid name = Some u ->
  In u (users db)
  /\ models.User.tenant_id u = tid
  /\ func.lower (models.User.username u) = Str.lower (Str.strip name).
Proof.
  unfold resolve_user. destruct (Str.has_nul _); [discriminate|].
  intros [Hin Hp]%find_some. split; [exact Hin|].
  unfold user_named in Hp. apply andb_true_iff in Hp as [Hn Ht].
  split; [now apply Z.eqb_eq | now apply String.eqb_eq].
Qed.

(** What a name resolves to once a tenant row has been added. *)
Lemma resolve_tenant_added db name new_tenant :
  resolve_tenant
    (mkDB (tenants db ++ [new_tenant]) (users db) (questions db)
          (quiz_submissions db)) name
  = match resolve_tenant db name with
    | Some t => Some t
    | None =>
        if Str.has_nul (Str.lower (Str.strip name)) then None
        else if tenant_named (Str.lower (Str.strip name)) new_tenant
             then Some new_tenant else None
    end.
Proof.
  unfold resolve_tenant. simpl. destruct (Str.has_nul _); [reflexivity|].
  rewrite find_app. destruct (List.find _ (tenants db)); [reflexivity|].
  simpl. now destruct (tenant_named _ new_tenant).
Qed.

(** What a username resolves to once a user row has been added. *)
Lemma resolve_user_added db tid name new_user :
  resolve_user
    (mkDB (tenants db) (users db ++ [new_user]) (questions db)
          (quiz_submissions db)) tid name
  = match resolve_user db tid name with
    | Some u => Some u
    | None =>
        if Str.has_nul (Str.lower (Str.strip name)) then None
        else if user_named (Str.lower (Str.strip name)) tid new_user
             then Some new_user else None
    end.
Proof.
  unfold resolve_user. simpl. destruct (Str.has_nul _); [reflexivity|].
  rewrite find_app. destruct (List.find _ (users db)); [reflexivity|].
  simpl. now destruct (user_named _ tid new_user).
Qed.

(** The store after a successful [create_tenant]. *)
Lemma create_tenant_ok_inv tenant db body :
  response (serve (create_tenant tenant) db) = Ok body ->
  resolve_tenant db (TenantCreate.name tenant) = None
  /\ Str.has_nul (Str.lower (Str.strip (TenantCreate.name tenant))) = false
  /\ Str.has_nul (Str.strip (TenantCreate.display_name tenant)) = false
  /\ tenant_name_taken (Str.strip (TenantCreate.name tenant)) db = false
  /\ serve (create_tenant tenant) db =
     let new_tenant :=
       models.Tenant.mk (next_id models.Tenant.id (tenants db))
         (Str.strip (TenantCreate.name tenant))
         (Str.strip (TenantCreate.display_name tenant)) in
     mkOutcome
       (Ok (JDict [("message", JStr "Tenant created successfully");
                   ("tenant_id", JInt (models.Tenant.id new_tenant));
                   ("name", JStr (models.Tenant.name new_tenant))]))
       (mkDB (tenants db ++ [new_tenant]) (users db) (questions db)
             (quiz_submissions db))
       [].
Proof.
  rewrite serve_create_tenant.
  destruct (resolve_tenant db _); [discriminate|].
  destruct (Str.has_nul (Str.lower _)); [discriminate|].
  destruct (Str.has_nul (Str.strip (TenantCreate.name tenant)));
    [discriminate|].
  destruct (Str.has_nul (Str.strip (TenantCreate.display_name tenant)));
    [discriminate|].
  destruct (tenant_name_taken _ db); [discriminate|]. now repeat split.
Qed.

(** The store after a successful [signup]. *)
Lemma signup_ok_db digest auth db body :
  response (serve (signup digest auth) db) = Ok body ->
  exists tenant,
    resolve_tenant db (AuthRequest.tenant auth) = Some tenant
    /\ resolve_user db (models.Tenant.id tenant) (AuthRequest.username auth)
       = None
    /\ Str.has_nul (Str.lower (Str.strip (AuthRequest.username auth))) = false
    /\ user_tenant_taken (Str.strip (AuthRequest.username auth))
         (models.Tenant.id tenant) db = false
    /\ serve (signup digest auth) db =
       let new_user :=
         models.User.mk (next_id models.User.id (users db))
           (Str.strip (AuthRequest.username auth))
           (hash_password digest (Str.strip (AuthRequest.password auth)))
           (models.Tenant.id tenant) in
       mkOutcome
         (Ok (JDict [("message", JStr "Signup successful");
                     ("tenant", JStr (models.Tenant.name tenant));
                     ("username",
                      JStr (Str.strip (AuthRequest.username auth)))]))
         (mkDB (tenants db) (users db ++ [new_user]) (questions db)
               (quiz_submissions db))
         [].
Proof.
  rewrite serve_signup.
  destruct (resolve_tenant db _) as [tenant|];
    [|destruct (Str.has_nul _); discriminate].
  destruct (resolve_user db _ _) eqn:Hu; [discriminate|].
  destruct (Str.has_nul (Str.lower _)) eqn:Hnul; [discriminate|].
  destruct (Str.has_nul (Str.strip (AuthRequest.username auth)));
    [discriminate|].
  destruct (Str.has_nul (hash_password _ _)); [discriminate|].
  destruct (user_tenant_taken _ _ db) eqn:Htaken; [discriminate|].
  intros _. exists tenant. now repeat split.
Qed.

(** A user signed up under a name whose lower-cased form the store
    computes differently is not found under that name afterwards. *)
Lemma resolve_user_missed digest auth db body :
  response (serve (signup digest auth) db) = Ok body ->
  func.lower (Str.strip (AuthRequest.username auth))
  <> Str.lower (Str.strip (AuthRequest.username auth)) ->
  exists tenant,
    resolve_tenant (db_after (serve (signup digest auth) db))
      (AuthRequest.tenant auth) = Some tenant
    /\ resolve_user (db_after (serve (signup digest auth) db))
         (models.Tenant.id tenant) (AuthRequest.username auth) = None
    /\ Str.has_nul (Str.lower (Str.strip (AuthRequest.username auth))) = false
    /\ user_tenant_taken (Str.strip (AuthRequest.username auth))
         (models.Tenant.id tenant) (db_after (serve (signup digest auth) db))
       = true.
Proof.
  intros Hok Hmiss.
  destruct (signup_ok_db _ _ _ _ Hok) as (t & Ht & Hfree & Hnul & _ & ->).
  exists t. simpl db_after. repeat split.
  - exact Ht.
  - rewrite resolve_user_added, Hfree, Hnul. unfold user_named. simpl.
    apply String.eqb_neq in Hmiss. now rewrite Hmiss.
  - exact Hnul.
  - unfold user_tenant_taken. simpl. rewrite existsb_app. simpl.
    now rewrite String.eqb_refl, Z.eqb_refl, orb_true_r.
Qed.

(** ** Tenant registry *)

(** C4 (the code departs from the claim): the check before the insert
    compares the store's [lower()] of the stored name with [str.lower] of
    the new one.  After a successful [create_tenant] with a name on which
    the two differ, [create_tenant] with a name that differs from it only
    in letter case and surrounding whitespace is never answered with 400:
    the check misses the stored row, and the request ends in a 500 when
    the trimmed names are equal (the unique index refuses the row). *)
Theorem create_tenant_twice_case_mismatch first second db body :
  differ_only_in_case_and_padding
    (TenantCreate.name first) (TenantCreate.name second) ->
  response (serve (create_tenant first) db) = Ok body ->
  func.lower (Str.strip (TenantCreate.name first))
  <> Str.lower (Str.strip (TenantCreate.name first)) ->
  let db1 := db_after (serve (create_tenant first) db) in
  (forall detail,
      response (serve (create_tenant second) db1) <> Error 400 detail)
  /\ (Str.strip (TenantCreate.name second)
      = Str.strip (TenantCreate.name first) ->
      serve (create_tenant second) db1
      = mkOutcome (Error 500 "Internal Server Error") db1 []).
Proof.
  intros Hsame Hok Hmiss db1.
  destruct (create_tenant_ok_inv _ _ _ Hok) as (Hfree & Hnul & _ & _ & Hout).
  unfold db1. rewrite Hout. simpl db_after. clear db1 Hout.
  pose proof (differ_only_same_key _ _ Hsame) as Hkey.
  assert (resolve_tenant
            (mkDB (tenants db
                   ++ [models.Tenant.mk (next_id models.Tenant.id (tenants db))
                         (Str.strip (TenantCreate.name first))
                         (Str.strip (TenantCreate.display_name first))])
                  (users db) (questions db) (quiz_submissions db))
            (TenantCreate.name second) = None) as Hnone.
  { rewrite resolve_tenant_added.
    rewrite <- (resolve_tenant_same_key db _ _ Hkey), Hfree, <- Hkey, Hnul.
    unfold tenant_named. simpl.
    apply String.eqb_neq in Hmiss. now rewrite Hmiss. }
  split.
  - intros detail. rewrite serve_create_tenant, Hnone.
    now destruct (_ || _).
  - intros Hexact. rewrite serve_create_tenant, Hnone, Hexact.
    replace (tenant_name_taken (Str.strip (TenantCreate.name first)) _)
      with true; [now rewrite !orb_true_r|].
    unfold tenant_name_taken. simpl. rewrite existsb_app. simpl.
    now rewrite String.eqb_refl, orb_true_r.
Qed.

(** ** Account service *)

Section Accounts.

Variable sha256_hexdigest : string -> string.

(** C3 (the code departs from the claim): the check before the insert
    compares the store's [lower()] of the stored username with
    [str.lower] of the new one.  After a successful signup with a username
    on which the two differ, a second signup for the same tenant with a
    username of the same trimmed, lower-cased form is never answered with
    400: the check misses the stored row, and the request ends in a 500
    when the trimmed usernames are equal (the unique constraint refuses
    the row). *)
Theorem signup_twice_case_mismatch first second db body :
  response (serve (signup sha256_hexdigest first) db) = Ok body ->
  Str.lower (Str.strip (AuthRequest.username second))
  = Str.lower (Str.strip (AuthRequest.username first)) ->
  Str.lower (Str.strip (AuthRequest.tenant second))
  = Str.lower (Str.strip (AuthRequest.tenant first)) ->
  func.lower (Str.strip (AuthRequest.username first))
  <> Str.lower (Str.strip (AuthRequest.username first)) ->
  let db1 := db_after (serve (signup sha256_hexdigest first) db) in
  (forall detail,
      response (serve (signup sha256_hexdigest second) db1)
      <> Error 400 detail)
  /\ (Str.strip (AuthRequest.username second)
      = Str.strip (AuthRequest.username first) ->
      serve (signup sha256_hexdigest second) db1
      = mkOutcome (Error 500 "Internal Server Error") db1 []).
Proof.
  intros Hok Hname Htenant Hmiss db1.
  destruct (resolve_user_missed _ _ _ _ Hok Hmiss)
    as (t & Ht & Hnone & Hnul & Htaken).
  fold db1 in Ht, Hnone, Htaken.
  rewrite <- (resolve_tenant_same_key db1 _ _ Htenant) in Ht.
  rewrite <- (resolve_user_same_key db1 _ _ _ Hname) in Hnone.
  split.
  - intros detail. rewrite serve_signup, Ht, Hnone. now destruct (_ || _).
  - intros Hexact. rewrite serve_signup, Ht, Hnone, Hexact, Htaken.
    now rewrite !orb_true_r.
Qed.

(** C5 (amended): [login] fails with 404 when the tenant name holds no NUL
    character and no tenant matches its normalised form; with 401 when
    the tenant exists, the username holds no NUL character and no user of
    the tenant matches its normalised form, or the digest of the supplied
    password is not the stored one; a NUL character in the tenant name,
    or in the username once the tenant is found, ends the request in a
    500; after a successful signup of a username on which the store's
    [lower()] and [str.lower] agree, a login with the same tenant,
    username and password answers with the success message alone and
    leaves the store as it was. *)
Theorem login_outcomes auth db :
  (Str.has_nul (AuthRequest.tenant auth) = false ->
   resolve_tenant db (AuthRequest.tenant auth) = None ->
   serve (login sha256_hexdigest auth) db =
     mkOutcome (Error 404 "Tenant not found") db [])
  /\ (forall tenant,
         resolve_tenant db (AuthRequest.tenant auth) = Some tenant ->
         (Str.has_nul (AuthRequest.username auth) = false
          /\ resolve_user db (models.Tenant.id tenant)
               (AuthRequest.username auth) = None)
         \/ (exists user,
                resolve_user db (models.Tenant.id tenant)
                  (AuthRequest.username auth) = Some user
                /\ models.User.password user
                   <> hash_password sha256_hexdigest
                        (Str.strip (AuthRequest.password auth))) ->
         serve (login sha256_hexdigest auth) db =
           mkOutcome (Error 401 "Invalid credentials") db [])
  /\ (Str.has_nul (AuthRequest.tenant auth) = true
      \/ (Str.has_nul (AuthRequest.username auth) = true
          /\ exists tenant,
              resolve_tenant db (AuthRequest.tenant auth) = Some tenant) ->
      serve (login sha256_hexdigest auth) db =
        mkOutcome (Error 500 "Internal Server Error") db [])
  /\ (forall body,
         response (serve (signup sha256_hexdigest auth) db) = Ok body ->
         func.lower (Str.strip (AuthRequest.username auth))
         = Str.lower (Str.strip (AuthRequest.username auth)) ->
         let db1 := db_after (serve (signup sha256_hexdigest auth) db) in
         response (serve (login sha256_hexdigest auth) db1)
         = Ok (JDict [("message", JStr "Login successful")])
         /\ db_after (serve (login sha256_hexdigest auth) db1) = db1).
Proof.
  split; [|split; [|split]].
  - intros Hnul Hnone. now rewrite serve_login, Hnone, has_nul_key, Hnul.
  - intros tenant Ht [[Hnul Hnone] | (user & Hu & Hpw)];
      rewrite serve_login, Ht.
    + now rewrite Hnone, has_nul_key, Hnul.
    + rewrite Hu. apply String.eqb_neq in Hpw. now rewrite Hpw.
  - intros [Hnul | (Hnul & tenant & Ht)]; rewrite serve_login.
    + unfold resolve_tenant. now rewrite has_nul_key, Hnul.
    + rewrite Ht. unfold resolve_user. now rewrite has_nul_key, Hnul.
  - intros body Hok Hagree db1.
    destruct (signup_ok_db _ _ _ _ Hok) as (t & Ht & Hfree & Hnul & _ & Hout).
    unfold db1. rewrite Hout. simpl db_after. rewrite serve_login.
    change (resolve_tenant (mkDB (tenants db) _ _ _) ?n)
      with (resolve_tenant db n).
    rewrite Ht, resolve_user_added, Hfree, Hnul. unfold user_named. simpl.
    rewrite Hagree, !String.eqb_refl, Z.eqb_refl. simpl.
    rewrite String.eqb_refl. now split.
Qed.

(** C8 (the code departs from the claim): after a successful signup with a
    username on which the store's [lower()] and [str.lower] differ, the
    lookup at login misses the stored row under the very name signed up,
    so the login answers 401 whatever the password: also the one signed
    up with, and every other one with the same trimmed form. *)
Theorem login_after_signup_case_mismatch auth db body :
  response (serve (signup sha256_hexdigest auth) db) = Ok body ->
  func.lower (Str.strip (AuthRequest.username auth))
  <> Str.lower (Str.strip (AuthRequest.username auth)) ->
  let db1 := db_after (serve (signup sha256_hexdigest auth) db) in
  forall password,
    serve (login sha256_hexdigest
             (AuthRequest.mk (AuthRequest.username auth) password
                (AuthRequest.tenant auth))) db1
    = mkOutcome (Error 401 "Invalid credentials") db1 [].
Proof.
  intros Hok Hmiss db1 password.
  destruct (resolve_user_missed _ _ _ _ Hok Hmiss)
    as (t & Ht & Hnone & Hnul & _).
  fold db1 in Ht, Hnone. rewrite serve_login. simpl.
  now rewrite Ht, Hnone, Hnul.
Qed.

(** C10 (the code departs from the claim): after a successful signup with
    a username on which the store's [lower()] and [str.lower] differ, the
    lookup of [submit_quiz] does not find the stored row under the very
    name signed up: the submission is answered with 404, "User not
    found", and nothing is stored. *)
Theorem submit_quiz_after_signup_case_mismatch auth db body :
  response (serve (signup sha256_hexdigest auth) db) = Ok body ->
  func.lower (Str.strip (AuthRequest.username auth))
  <> Str.lower (Str.strip (AuthRequest.username auth)) ->
  let db1 := db_after (serve (signup sha256_hexdigest auth) db) in
  forall answers,
    serve (submit_quiz (AuthRequest.tenant auth)
             (QuizSubmission.mk (AuthRequest.username auth) answers)) db1
    = mkOutcome (Error 404 "User not found") db1 [].
Proof.
  intros Hok Hmiss db1 answers.
  destruct (resolve_user_missed _ _ _ _ Hok Hmiss)
    as (t & Ht & Hnone & Hnul & _).
  fold db1 in Ht, Hnone. rewrite serve_submit_quiz. simpl.
  now rewrite Ht, Hnone, Hnul.
Qed.

End Accounts.

(** ** Question bank: setting the questions *)

Lemma question_rows_columns tid first qs :
  map (fun r => (models.Question.question r, models.Question.answer r,
                 models.Question.tenant_id r))
      (question_rows tid first qs)
  = map (fun q => (Str.strip (QuestionCreate.question q),
                   QuestionCreate.answer q, tid)) qs.
Proof.
  revert first. induction qs as [|q qs IH]; intros first; simpl;
    [reflexivity | now rewrite IH].
Qed.

Lemma question_rows_keys tid first qs :
  map models.Question.id (question_rows tid first qs)
  = map (fun i => first + Z.of_nat i) (seq 0 (length qs)).
Proof.
  revert first. induction qs as [|q qs IH]; intros first; simpl;
    [reflexivity|].
  rewrite IH, <- seq_shift, map_map. f_equal; [lia|].
  apply map_ext. intros i. lia.
Qed.

Lemma question_rows_of_tenant tid first qs :
  List.filter (question_of tid) (question_rows tid first qs)
  = question_rows tid first qs.
Proof.
  revert first. induction qs as [|q qs IH]; intros first; simpl;
    [reflexivity|].
  unfold question_of at 1. simpl. now rewrite Z.eqb_refl, IH.
Qed.

Lemma question_rows_length tid first qs :
  length (question_rows tid first qs) = length qs.
Proof.
  revert first. induction qs as [|q qs IH]; intros first; simpl;
    [reflexivity | now rewrite IH].
Qed.

Lemma has_nul_texts (qs : list QuestionCreate.t) :
  existsb (fun q => Str.has_nul (Str.strip (QuestionCreate.question q))) qs
  = existsb (fun q => Str.has_nul (QuestionCreate.question q)) qs.
Proof.
  induction qs as [|q qs IH]; simpl; [reflexivity|].
  now rewrite has_nul_strip, IH.
Qed.

(** The first population of a tenant's question set. *)
Lemma set_questions_first tenant payload db db_tenant new_questions :
  resolve_tenant db tenant = Some db_tenant ->
  tenant_questions db (models.Tenant.id db_tenant) = [] ->
  payload !! "questions" = Some new_questions ->
  existsb (fun q => Str.has_nul (QuestionCreate.question q)) new_questions
  = false ->
  let tid := models.Tenant.id db_tenant in
  let rows :=
    question_rows tid (next_id models.Question.id (questions db))
      new_questions in
  let db1 :=
    mkDB (tenants db) (users db) (questions db ++ rows)
         (quiz_submissions db) in
  serve (set_questions tenant payload) db =
    mkOutcome
      (Ok (JDict
         [("message",
           JStr (Str.of_int (Z.of_nat (length new_questions))
                 +:+ " questions set for "
                 +:+ models.Tenant.name db_tenant))]))
      db1
      ["Admin set questions - Tenant: " +:+ models.Tenant.name db_tenant]
  /\ tenant_questions db1 tid = rows.
Proof.
  intros Htenant Hnone Hpayload Hnul tid rows db1. split.
  - now rewrite serve_set_questions, Htenant, Hnone, Hpayload, has_nul_texts,
      Hnul.
  - unfold tenant_questions, db1. simpl. rewrite List.filter_app.
    fold (tenant_questions db tid). unfold tid at 1. rewrite Hnone.
    apply question_rows_of_tenant.
Qed.

(** A batch with a NUL character in one of its texts is refused whole. *)
Lemma set_questions_refused tenant payload db db_tenant new_questions :
  resolve_tenant db tenant = Some db_tenant ->
  tenant_questions db (models.Tenant.id db_tenant) = [] ->
  payload !! "questions" = Some new_questions ->
  existsb (fun q => Str.has_nul (QuestionCreate.question q)) new_questions
  = true ->
  serve (set_questions tenant payload) db =
    mkOutcome (Error 500 "Internal Server Error") db [].
Proof.
  intros Htenant Hnone Hpayload Hnul.
  now rewrite serve_set_questions, Htenant, Hnone, Hpayload, has_nul_texts,
    Hnul.
Qed.

(** C2 (amended): for a tenant that already has a question,
    [set_questions] with any payload leaves the store as it is and
    answers, without error, with the existing questions (id, text, correct
    answer); for a tenant without questions it inserts the given
    questions, text trimmed, tagged with the tenant's key, in the order
    submitted, provided none of the texts holds a NUL character; when one
    does, the request ends in a 500 and nothing is inserted. *)
Theorem set_questions_sets_once tenant payload db db_tenant :
  resolve_tenant db tenant = Some db_tenant ->
  let tid := models.Tenant.id db_tenant in
  let existing := tenant_questions db tid in
  let out := serve (set_questions tenant payload) db in
  (existing <> [] ->
   out =
     mkOutcome
       (Ok (JDict
          [("message", JStr "Questions already exist for this tenant");
           ("questions",
            JList (map (fun q =>
                     JDict [("id", JInt (models.Question.id q));
                            ("question", JStr (models.Question.question q));
                            ("answer", JBool (models.Question.answer q))])
                     existing))]))
       db [])
  /\ (existing = [] ->
      forall new_questions,
        payload !! "questions" = Some new_questions ->
        existsb (fun q => Str.has_nul (QuestionCreate.question q))
          new_questions = false ->
        let rows :=
          question_rows tid (next_id models.Question.id (questions db))
            new_questions in
        response out =
          Ok (JDict
            [("message",
              JStr (Str.of_int (Z.of_nat (length new_questions))
                    +:+ " questions set for "
                    +:+ models.Tenant.name db_tenant))])
        /\ db_after out =
           mkDB (tenants db) (users db) (questions db ++ rows)
                (quiz_submissions db)
        /\ tenant_questions (db_after out) tid = rows
        /\ map (fun r => (models.Question.question r,
                          models.Question.answer r,
                          models.Question.tenant_id r)) rows
           = map (fun q => (Str.strip (QuestionCreate.question q),
                            QuestionCreate.answer q, tid)) new_questions)
  /\ (existing = [] ->
      forall new_questions,
        payload !! "questions" = Some new_questions ->
        existsb (fun q => Str.has_nul (QuestionCreate.question q))
          new_questions = true ->
        out = mkOutcome (Error 500 "Internal Server Error") db []).
Proof.
  intros Htenant tid existing out. split; [|split].
  - intros Hsome. unfold out. rewrite serve_set_questions, Htenant.
    fold tid existing. now destruct existing.
  - intros Hnone new_questions Hpayload Hnul rows.
    destruct (set_questions_first tenant payload db db_tenant new_questions
                Htenant Hnone Hpayload Hnul) as [Hout Hqs].
    unfold out. rewrite Hout. repeat split.
    + exact Hqs.
    + apply question_rows_columns.
  - intros Hnone new_questions Hpayload Hnul.
    exact (set_questions_refused tenant payload db db_tenant new_questions
             Htenant Hnone Hpayload Hnul).
Qed.

(** C9 (amended): on a tenant without questions, [set_questions] with an
    empty list succeeds, reports 0 questions set, inserts nothing and does
    not freeze the bank: the question set is still empty, and a later
    [set_questions] with a non-empty list whose texts hold no NUL
    character populates it. *)
Theorem set_questions_empty_list_does_not_freeze tenant payload db db_tenant :
  resolve_tenant db tenant = Some db_tenant ->
  tenant_questions db (models.Tenant.id db_tenant) = [] ->
  payload !! "questions" = Some [] ->
  let tid := models.Tenant.id db_tenant in
  let out := serve (set_questions tenant payload) db in
  response out =
    Ok (JDict [("message",
                JStr ("0 questions set for "
                      +:+ models.Tenant.name db_tenant))])
  /\ db_after out = db
  /\ tenant_questions (db_after out) tid = []
  /\ (forall payload' new_questions,
         payload' !! "questions" = Some new_questions ->
         new_questions <> [] ->
         existsb (fun q => Str.has_nul (QuestionCreate.question q))
           new_questions = false ->
         let out' := serve (set_questions tenant payload') (db_after out) in
         response out' =
           Ok (JDict
             [("message",
               JStr (Str.of_int (Z.of_nat (length new_questions))
                     +:+ " questions set for "
                     +:+ models.Tenant.name db_tenant))])
         /\ tenant_questions (db_after out') tid =
            question_rows tid (next_id models.Question.id (questions db))
              new_questions
         /\ tenant_questions (db_after out') tid <> []).
Proof.
  intros Htenant Hnone Hpayload tid out.
  destruct (set_questions_first tenant payload db db_tenant []
              Htenant Hnone Hpayload eq_refl) as [Hout _].
  simpl in Hout. rewrite app_nil_r in Hout.
  replace (mkDB (tenants db) (users db) (questions db) (quiz_submissions db))
    with db in Hout by now destruct db.
  unfold out. rewrite Hout. simpl db_after. simpl response.
  split; [reflexivity|]. split; [reflexivity|]. split; [exact Hnone|].
  intros payload' new_questions Hpayload' Hnonempty Hnul.
  destruct (set_questions_first tenant payload' db db_tenant new_questions
              Htenant Hnone Hpayload' Hnul) as [Hout' Hqs'].
  rewrite Hout'. simpl db_after. simpl response.
  split; [reflexivity|]. split; [exact Hqs'|].
  unfold tid in *. simpl in Hqs'. rewrite Hqs'. intros Hrows.
  apply Hnonempty.
  apply (f_equal (@length _)) in Hrows.
  rewrite question_rows_length in Hrows. now destruct new_questions.
Qed.

(** * Further properties of the handlers *)

(** ** The remaining handler equations *)

Lemma serve_health_check db :
  serve health_check db = mkOutcome (Ok (JDict [("status", JStr "healthy")])) db [].
Proof. reflexivity. Qed.

Lemma serve_check_tenant tenant_name db :
  serve (check_tenant tenant_name) db =
  if Str.has_nul (Str.lower (Str.strip tenant_name))
  then mkOutcome (Error 500 "Internal Server Error") db []
  else
    mkOutcome
      (Ok (JDict [("exists",
                   JBool (match resolve_tenant db tenant_name with
                          | Some _ => true
                          | None => false
                          end))]))
      db [].
Proof.
  unfold check_tenant, resolve_tenant. run_handler.
  destruct (Str.has_nul _); [reflexivity|]. simpl.
  destruct (List.find _ (tenants db)); reflexivity.
Qed.

Lemma resolve_tenant_none db name :
  Str.has_nul (Str.lower (Str.strip name)) = false ->
  resolve_tenant db name = None <->
  forall t, In t (tenants db) ->
            func.lower (models.Tenant.name t) <> Str.lower (Str.strip name).
Proof.
  unfold resolve_tenant. intros ->. split.
  - intros Hnone t Ht. apply String.eqb_neq. exact (find_none _ _ Hnone t Ht).
  - intros Hall. apply find_none_intro. intros t Ht.
    apply String.eqb_neq. now apply Hall.
Qed.

(** ** Trimming twice *)

Lemma lstrip_idem s : Str.lstrip (Str.lstrip s) = Str.lstrip s.
Proof.
  induction s as [|c s IH]; simpl; [reflexivity|].
  destruct (Str.isspace c) eqn:Hc; [exact IH | simpl; now rewrite Hc].
Qed.

Lemma rstrip_cons c s :
  Str.rstrip (String c s) =
  match Str.rstrip s with
  | EmptyString => if Str.isspace c then EmptyString else String c EmptyString
  | r => String c r
  end.
Proof. reflexivity. Qed.

Lemma rstrip_idem s : Str.rstrip (Str.rstrip s) = Str.rstrip s.
Proof.
  induction s as [|c s IH]; [reflexivity|].
  rewrite rstrip_cons. destruct (Str.rstrip s) as [|d r] eqn:Hr.
  - destruct (Str.isspace c) eqn:Hc; simpl; [reflexivity | now rewrite Hc].
  - now rewrite rstrip_cons, IH.
Qed.

Lemma lstrip_rstrip s : Str.lstrip (Str.rstrip s) = Str.rstrip (Str.lstrip s).
Proof.
  induction s as [|c s IH]; simpl; [reflexivity|].
  destruct (Str.isspace c) eqn:Hc.
  - rewrite <- IH. destruct (Str.rstrip s); simpl; [reflexivity | now rewrite Hc].
  - simpl. destruct (Str.rstrip s); simpl; now rewrite Hc.
Qed.

(** [strip] leaves a trimmed text as it is. *)
Lemma strip_idem s : Str.strip (Str.strip s) = Str.strip s.
Proof.
  unfold Str.strip. now rewrite lstrip_rstrip, rstrip_idem, lstrip_idem.
Qed.

(** ** One request, one transition *)

Lemma handle_transition digest r db :
  transition db (db_after (handle digest r db)).
Proof.
  destruct r; unfold handle, route.
  - apply stays.
  - rewrite serve_create_tenant.
    destruct (resolve_tenant db _) eqn:Ht; [apply stays|].
    destruct (Str.has_nul (Str.lower _)); [apply stays|].
    destruct (Str.has_nul (Str.strip (TenantCreate.name tenant)));
      [apply stays|].
    destruct (Str.has_nul (Str.strip (TenantCreate.display_name tenant)));
      [apply stays|].
    destruct (tenant_name_taken _ db) eqn:Htaken; [apply stays|].
    now apply adds_tenant.
  - rewrite serve_check_tenant. destruct (Str.has_nul _); apply stays.
  - rewrite serve_signup.
    destruct (resolve_tenant db _) as [t|] eqn:Ht;
      [|destruct (Str.has_nul _); apply stays].
    destruct (resolve_user db _ _) eqn:Hu; [apply stays|].
    destruct (Str.has_nul (Str.lower _)); [apply stays|].
    destruct (Str.has_nul (Str.strip (AuthRequest.username auth)));
      [apply stays|].
    destruct (Str.has_nul (hash_password _ _)); [apply stays|].
    destruct (user_tenant_taken _ _ db) eqn:Htaken; [apply stays|].
    apply adds_user;
      [apply (resolve_tenant_in _ _ _ Ht) | exact Hu | exact Htaken].
  - rewrite serve_login.
    destruct (resolve_tenant db _) as [t|];
      [|destruct (Str.has_nul _); apply stays].
    destruct (resolve_user db _ _) as [u|];
      [|destruct (Str.has_nul _); apply stays].
    destruct (String.eqb _ _); apply stays.
  - rewrite serve_set_questions.
    destruct (resolve_tenant db _) as [t|] eqn:Ht;
      [|destruct (Str.has_nul _); apply stays].
    destruct (tenant_questions db _) eqn:Hq; [|apply stays].
    destruct (payload !! "questions"); [|apply stays].
    destruct (existsb _ _); [apply stays|].
    apply adds_questions; [apply (resolve_tenant_in _ _ _ Ht) | exact Hq].
  - rewrite serve_get_questions.
    destruct (resolve_tenant db _); [|destruct (Str.has_nul _)]; apply stays.
  - rewrite serve_get_admin_questions.
    destruct (resolve_tenant db _); [|destruct (Str.has_nul _)]; apply stays.
  - rewrite serve_submit_quiz.
    destruct (resolve_tenant db _) as [t|] eqn:Ht;
      [|destruct (Str.has_nul _); apply stays].
    destruct (resolve_user db _ _) as [u|] eqn:Hu;
      [|destruct (Str.has_nul _); apply stays].
    destruct (tenant_questions db _) eqn:Hq; [apply stays|].
    rewrite <- Hq. simpl db_after.
    apply adds_submission;
      [apply (resolve_tenant_in _ _ _ Ht) | apply (resolve_user_in _ _ _ _ Hu) ..].
Qed.

(** ** Tenant check *)

(** X1: [check_tenant] never writes.  For a name without a NUL character
    it answers [exists: true] exactly when the store's [lower()] of some
    tenant's name equals the given name trimmed and lower-cased; a name
    with a NUL character ends the request in a 500. *)
Theorem check_tenant_reports_presence tenant_name db :
  (Str.has_nul tenant_name = false ->
   exists found,
     serve (check_tenant tenant_name) db =
       mkOutcome (Ok (JDict [("exists", JBool found)])) db []
     /\ (found = true <->
         exists t, In t (tenants db)
                   /\ func.lower (models.Tenant.name t)
                      = Str.lower (Str.strip tenant_name)))
  /\ (Str.has_nul tenant_name = true ->
      serve (check_tenant tenant_name) db =
        mkOutcome (Error 500 "Internal Server Error") db []).
Proof.
  split; intros Hnul; rewrite serve_check_tenant, has_nul_key, Hnul;
    [|reflexivity].
  rewrite <- (has_nul_key tenant_name) in Hnul.
  destruct (resolve_tenant db tenant_name) as [t|] eqn:Ht.
  - exists true. split; [reflexivity|]. split; [|reflexivity].
    intros _. exists t. exact (resolve_tenant_in _ _ _ Ht).
  - exists false. split; [reflexivity|]. split; [discriminate|].
    intros (t & Hin & Hkey).
    exfalso. exact (proj1 (resolve_tenant_none _ _ Hnul) Ht t Hin Hkey).
Qed.

(** X2: [create_tenant] and [check_tenant] run the same query:
    [create_tenant] is refused with 400 exactly when [check_tenant]
    reports the name as existing, and then changes nothing.  After a
    successful [create_tenant] with a name on which the store's [lower()]
    and [str.lower] agree, [check_tenant] reports every spelling with the
    same trimmed, lower-cased form as existing. *)
Theorem create_tenant_agrees_with_check tenant db :
  let name := TenantCreate.name tenant in
  let out := serve (create_tenant tenant) db in
  (response (serve (check_tenant name) db)
   = Ok (JDict [("exists", JBool true)]) <->
   out = mkOutcome (Error 400 ("Tenant '" +:+ name +:+ "' already exists"))
           db [])
  /\ (forall detail,
         response out = Error 400 detail ->
         response (serve (check_tenant name) db)
         = Ok (JDict [("exists", JBool true)]))
  /\ (forall body,
         response out = Ok body ->
         func.lower (Str.strip name) = Str.lower (Str.strip name) ->
         forall spelling,
           Str.lower (Str.strip spelling) = Str.lower (Str.strip name) ->
           response (serve (check_tenant spelling) (db_after out))
           = Ok (JDict [("exists", JBool true)])).
Proof.
  intros name out.
  assert (forall detail,
             response out = Error 400 detail ->
             resolve_tenant db name <> None) as H400.
  { intros detail. unfold out. rewrite serve_create_tenant. fold name.
    destruct (resolve_tenant db name); [discriminate|].
    now destruct (_ || _). }
  split; [split|split].
  - rewrite serve_check_tenant. unfold out. rewrite serve_create_tenant.
    fold name. destruct (resolve_tenant db name); [reflexivity|].
    now destruct (Str.has_nul _).
  - intros Hout. rewrite serve_check_tenant.
    assert (resolve_tenant db name <> None) as Hsome
      by (apply (H400 ("Tenant '" +:+ name +:+ "' already exists"));
          now rewrite Hout).
    destruct (resolve_tenant db name) as [t|] eqn:Ht; [|contradiction].
    now rewrite (resolve_tenant_nul _ _ _ Ht).
  - intros detail Hout. rewrite serve_check_tenant.
    pose proof (H400 detail Hout) as Hsome.
    destruct (resolve_tenant db name) as [t|] eqn:Ht; [|contradiction].
    now rewrite (resolve_tenant_nul _ _ _ Ht).
  - intros body Hok Hagree spelling Hkey.
    destruct (create_tenant_ok_inv _ _ _ Hok) as (Hfree & Hnul & _ & _ & Hout).
    unfold out. rewrite Hout. simpl db_after.
    rewrite serve_check_tenant, Hkey. fold name in Hnul. rewrite Hnul.
    rewrite (resolve_tenant_same_key _ _ _ Hkey), resolve_tenant_added.
    fold name in Hfree. rewrite Hfree, Hnul. unfold tenant_named. simpl.
    fold name. now rewrite Hagree, String.eqb_refl.
Qed.

(** ** Errors, reads and status codes *)

(** X3: whatever the request, an error response means that the store is
    as it was and that nothing was logged. *)
Theorem error_leaves_store_unchanged digest r db status_code detail :
  response (handle digest r db) = Error status_code detail ->
  db_after (handle digest r db) = db /\ logged (handle digest r db) = [].
Proof.
  destruct r; unfold handle, route.
  - discriminate.
  - rewrite serve_create_tenant.
    destruct (resolve_tenant db _); [now split|].
    destruct (_ || _); [now split | discriminate].
  - rewrite serve_check_tenant.
    destruct (Str.has_nul _); [now split | discriminate].
  - rewrite serve_signup.
    destruct (resolve_tenant db _); [|destruct (Str.has_nul _); now split].
    destruct (resolve_user db _ _); [now split|].
    destruct (_ || _); [now split | discriminate].
  - rewrite serve_login.
    destruct (resolve_tenant db _); [|destruct (Str.has_nul _); now split].
    destruct (resolve_user db _ _); [|destruct (Str.has_nul _); now split].
    destruct (String.eqb _ _); [discriminate | now split].
  - rewrite serve_set_questions.
    destruct (resolve_tenant db _); [|destruct (Str.has_nul _); now split].
    destruct (tenant_questions db _); [|discriminate].
    destruct (payload !! "questions"); [|now split].
    destruct (existsb _ _); [now split | discriminate].
  - rewrite serve_get_questions.
    destruct (resolve_tenant db _);
      [discriminate | destruct (Str.has_nul _); now split].
  - rewrite serve_get_admin_questions.
    destruct (resolve_tenant db _);
      [discriminate | destruct (Str.has_nul _); now split].
  - rewrite serve_submit_quiz.
    destruct (resolve_tenant db _); [|destruct (Str.has_nul _); now split].
    destruct (resolve_user db _ _); [|destruct (Str.has_nul _); now split].
    destruct (tenant_questions db _); [now split | discriminate].
Qed.

(** X4: the health check, the tenant check, login and the two question
    views never change the store, whether they succeed or fail. *)
Theorem read_only_requests_do_not_write digest r db :
  read_only r = true -> db_after (handle digest r db) = db.
Proof.
  destruct r; try discriminate; intros _; unfold handle, route.
  - reflexivity.
  - rewrite serve_check_tenant. now destruct (Str.has_nul _).
  - rewrite serve_login.
    destruct (resolve_tenant db _); [|now destruct (Str.has_nul _)].
    destruct (resolve_user db _ _); [|now destruct (Str.has_nul _)].
    now destruct (String.eqb _ _).
  - rewrite serve_get_questions.
    destruct (resolve_tenant db _); [|destruct (Str.has_nul _)]; reflexivity.
  - rewrite serve_get_admin_questions.
    destruct (resolve_tenant db _); [|destruct (Str.has_nul _)]; reflexivity.
Qed.


(** ** Properties every request keeps *)

Lemma NoDup_snoc {A} (l : list A) (x : A) :
  List.NoDup l -> ~ In x l -> List.NoDup (l ++ [x]).
Proof.
  induction 1 as [|y l Hy Hl IH]; intros Hx; simpl.
  - constructor; [tauto | constructor].
  - constructor.
    + rewrite in_app_iff. simpl. intros [H | [H | []]]; [tauto|].
      apply Hx. now left.
    + apply IH. intros H. apply Hx. now right.
Qed.

(** A property kept by every transition holds after every sequence of
    requests. *)
Lemma run_keeps (P : DB -> Prop) digest :
  (forall db db', transition db db' -> P db -> P db') ->
  forall rs db, P db -> P (run digest rs db).
Proof.
  intros Hstep rs. induction rs as [|r rs IH]; intros db HP; simpl;
    [exact HP|].
  apply IH. exact (Hstep _ _ (handle_transition digest r db) HP).
Qed.

Lemma transition_names_unique db db' :
  transition db db' -> names_unique db -> names_unique db'.
Proof.
  unfold names_unique. destruct 1 as [|name dn _ Htaken| | |]; simpl; auto.
  intros Hnd. rewrite map_app. simpl. apply NoDup_snoc; [exact Hnd|].
  intros (t & Hname & Hin)%in_map_iff.
  unfold tenant_name_taken in Htaken.
  assert (existsb (fun t => String.eqb (models.Tenant.name t) (Str.strip name))
            (tenants db) = true) as Hyes
    by (apply existsb_exists; exists t; split;
        [exact Hin | now apply String.eqb_eq]).
  congruence.
Qed.

Lemma transition_usernames_unique db db' :
  transition db db' -> usernames_unique db -> usernames_unique db'.
Proof.
  unfold usernames_unique.
  destruct 1 as [| |tenant username pw _ _ Htaken| |]; simpl; auto.
  intros Hnd. rewrite map_app. simpl. apply NoDup_snoc; [exact Hnd|].
  intros (u & Hkey & Hin)%in_map_iff. injection Hkey as Hname Htid.
  unfold user_tenant_taken in Htaken.
  assert (existsb
            (fun x => String.eqb (models.User.username x) (Str.strip username)
                      && (models.User.tenant_id x =? models.Tenant.id tenant))
            (users db) = true) as Hyes.
  { apply existsb_exists. exists u. split; [exact Hin|].
    now rewrite Hname, Htid, String.eqb_refl, Z.eqb_refl. }
  congruence.
Qed.

Lemma question_rows_trimmed tid first qs :
  Forall (fun q => trimmed (models.Question.question q))
    (question_rows tid first qs).
Proof.
  revert first. induction qs as [|q qs IH]; intros first; simpl;
    constructor; [apply strip_idem | apply IH].
Qed.

Lemma transition_text_trimmed db db' :
  transition db db' -> text_trimmed db -> text_trimmed db'.
Proof.
  unfold text_trimmed. destruct 1; simpl; auto; intros (Ht & Hu & Hq);
    repeat split; auto; apply Forall_app; split; auto.
  - repeat constructor; apply strip_idem.
  - repeat constructor. apply strip_idem.
  - apply question_rows_trimmed.
Qed.

Lemma question_rows_tenant tid first qs :
  Forall (fun q => models.Question.tenant_id q = tid)
    (question_rows tid first qs).
Proof.
  revert first. induction qs as [|q qs IH]; intros first; simpl;
    constructor; [reflexivity | apply IH].
Qed.

Lemma transition_references_ok db db' :
  transition db db' -> references_ok db -> references_ok db'.
Proof.
  unfold references_ok.
  destruct 1 as [|name dn _ _|tenant username pw Hin _ _
                 |tenant qs Hin _|tenant user answers Hin Huser Htid];
    simpl; auto; intros (Hu & Hq & Hs); repeat split.
  - eapply List.Forall_impl; [|exact Hu]. intros u (t & Ht & Hid).
    exists t. split; [apply in_or_app; now left | exact Hid].
  - eapply List.Forall_impl; [|exact Hq]. intros q (t & Ht & Hid).
    exists t. split; [apply in_or_app; now left | exact Hid].
  - eapply List.Forall_impl; [|exact Hs]. intros s ((t & Ht & Hid) & Hus).
    split; [|exact Hus].
    exists t. split; [apply in_or_app; now left | exact Hid].
  - apply Forall_app. split; [exact Hu|].
    repeat constructor. now exists tenant.
  - exact Hq.
  - eapply List.Forall_impl; [|exact Hs]. intros s (Ht & u & Hu' & Hid & Hut).
    split; [exact Ht|].
    exists u. split; [apply in_or_app; now left | now split].
  - exact Hu.
  - apply Forall_app. split; [exact Hq|].
    eapply List.Forall_impl; [|apply question_rows_tenant].
    intros q Hq'. now exists tenant.
  - exact Hs.
  - exact Hu.
  - exact Hq.
  - apply Forall_app. split; [exact Hs|].
    repeat constructor; simpl; [now exists tenant | now exists user].
Qed.

Lemma transition_scores_bounded db db' :
  transition db db' -> scores_bounded db -> scores_bounded db'.
Proof.
  unfold scores_bounded. destruct 1; simpl; auto. intros Hs.
  apply Forall_app. split; [exact Hs|]. repeat constructor; simpl.
  - rewrite calculate_score_rec. apply score_rec_bounds.
  - rewrite calculate_score_rec.
    pose proof (score_rec_bounds
                  (tenant_questions db (models.Tenant.id tenant)) answers).
    lia.
Qed.

(** X6: no two tenants ever have the same stored name: the property holds
    in the empty store and, once it holds, after any sequence of
    requests. *)
Theorem tenant_names_stay_unique digest :
  names_unique empty_db
  /\ forall rs db, names_unique db -> names_unique (run digest rs db).
Proof.
  split; [constructor|]. apply run_keeps, transition_names_unique.
Qed.

(** X7: no two users of one tenant ever have the same stored username, in
    the empty store and after any sequence of requests on a store where
    this holds. *)
Theorem usernames_stay_unique_per_tenant digest :
  usernames_unique empty_db
  /\ forall rs db, usernames_unique db -> usernames_unique (run digest rs db).
Proof.
  split; [constructor|]. apply run_keeps, transition_usernames_unique.
Qed.

(** X8: stored names, display names, usernames and question texts have no
    leading or trailing whitespace, in the empty store and after any
    sequence of requests on a store where they have none. *)
Theorem stored_text_stays_trimmed digest :
  text_trimmed empty_db
  /\ forall rs db, text_trimmed db -> text_trimmed (run digest rs db).
Proof.
  split; [repeat constructor|]. apply run_keeps, transition_text_trimmed.
Qed.

(** X9: every user and question row names an existing tenant, and every
    submission names an existing tenant and an existing user of that
    tenant, in the empty store and after any sequence of requests on a
    store where this holds. *)
Theorem references_stay_valid digest :
  references_ok empty_db
  /\ forall rs db, references_ok db -> references_ok (run digest rs db).
Proof.
  split; [repeat constructor|]. apply run_keeps, transition_references_ok.
Qed.

(** X10: every stored score lies between 0 and the number of answers
    stored with it, in the empty store and after any sequence of requests
    on a store where this holds. *)
Theorem stored_scores_stay_bounded digest :
  scores_bounded empty_db
  /\ forall rs db, scores_bounded db -> scores_bounded (run digest rs db).
Proof.
  split; [constructor|]. apply run_keeps, transition_scores_bounded.
Qed.

(** ** Stored names resolve to their own rows *)

Lemma find_unique {A K} (key : A -> K) (same : K -> K -> bool) :
  (forall a b, same a b = true <-> a = b) ->
  forall l x,
    List.NoDup (map key l) -> In x l ->
    List.find (fun y => same (key y) (key x)) l = Some x.
Proof.
  intros Hsame l x. induction l as [|y l IH]; simpl; [tauto|].
  intros Hnd Hin. inversion Hnd as [|k ks Hy Hl]; subst.
  destruct (same (key y) (key x)) eqn:Hk.
  - apply Hsame in Hk. destruct Hin as [-> | Hin]; [reflexivity|].
    exfalso. apply Hy. rewrite Hk. now apply in_map.
  - destruct Hin as [-> | Hin]; [|now apply IH].
    assert (same (key x) (key x) = true) by now apply Hsame.
    congruence.
Qed.

(** X11: in a store whose names and usernames are trimmed, hold no NUL
    character, are lower-cased by the store as by [str.lower] and are
    unique up to letter case, every tenant row is the one its stored name
    resolves to, every user row is the one its stored username resolves
    to inside its tenant, and so a login with a user's stored username,
    its tenant's stored name and its password succeeds. *)
Theorem stored_names_resolve digest db :
  plainly_named db ->
  (forall t, In t (tenants db) ->
             resolve_tenant db (models.Tenant.name t) = Some t)
  /\ (forall u, In u (users db) ->
                resolve_user db (models.User.tenant_id u)
                  (models.User.username u) = Some u)
  /\ (forall t u password,
         In t (tenants db) -> In u (users db) ->
         models.User.tenant_id u = models.Tenant.id t ->
         models.User.password u = hash_password digest (Str.strip password) ->
         response
           (serve (login digest
                     (AuthRequest.mk (models.User.username u) password
                        (models.Tenant.name t))) db)
         = Ok (JDict [("message", JStr "Login successful")])).
Proof.
  intros (Hplain_t & Hplain_u & Hnames & Husers).
  assert (forall t, In t (tenants db) ->
                    resolve_tenant db (models.Tenant.name t) = Some t) as Ht.
  { intros t Hin. unfold resolve_tenant.
    destruct (proj1 (List.Forall_forall _ _) Hplain_t t Hin)
      as ((Hnul & Hagree) & Htrim).
    rewrite Htrim, has_nul_lower, Hnul, <- Hagree.
    apply (find_unique (fun t => func.lower (models.Tenant.name t)) String.eqb);
      [apply String.eqb_eq | | exact Hin].
    erewrite map_ext_in; [exact Hnames|].
    intros t' Hin'. simpl.
    apply (proj1 (List.Forall_forall _ _) Hplain_t t' Hin'). }
  assert (forall u, In u (users db) ->
                    resolve_user db (models.User.tenant_id u)
                      (models.User.username u) = Some u) as Hu.
  { intros u Hin. unfold resolve_user.
    destruct (proj1 (List.Forall_forall _ _) Hplain_u u Hin)
      as ((Hnul & Hagree) & Htrim).
    rewrite Htrim, has_nul_lower, Hnul, <- Hagree.
    apply (find_unique
             (fun u => (func.lower (models.User.username u),
                        models.User.tenant_id u))
             (fun a b => String.eqb (fst a) (fst b) && (snd a =? snd b)));
      [| | exact Hin].
    - intros [n1 t1] [n2 t2]. simpl.
      rewrite andb_true_iff, String.eqb_eq, Z.eqb_eq. split.
      + now intros [-> ->].
      + now intros [= -> ->].
    - erewrite map_ext_in; [exact Husers|].
      intros u' Hin'. simpl. f_equal.
      apply (proj1 (List.Forall_forall _ _) Hplain_u u' Hin'). }
  split; [exact Ht|]. split; [exact Hu|].
  intros t u password Hint Hinu Htid Hpw.
  rewrite serve_login. simpl. rewrite (Ht t Hint), <- Htid, (Hu u Hinu).
  now rewrite Hpw, String.eqb_refl.
Qed.

(** ** More on the quiz scorer *)

Lemma score_rec_full (qs : list models.Question.t) answers :
  score_rec qs answers = Z.of_nat (length qs) <->
  firstn (length qs) answers = map models.Question.answer qs.
Proof.
  revert answers. induction qs as [|q qs IH]; intros answers.
  - simpl. tauto.
  - destruct answers as [|a answers].
    + simpl length. simpl score_rec. split; [lia | discriminate].
    + simpl length. simpl score_rec. simpl firstn. simpl map.
      pose proof (score_rec_bounds qs answers) as Hb. specialize (IH answers).
      destruct (Bool.eqb (models.Question.answer q) a) eqn:Ha.
      * apply Bool.eqb_prop in Ha. subst a. split.
        -- intros H. f_equal. apply IH. lia.
        -- intros [= H]. apply IH in H. lia.
      * split; [lia|]. intros [= H _]. subst a.
        now rewrite Bool.eqb_reflx in Ha.
Qed.

(** X12: the score is never negative and never exceeds the number of
    questions or of answers; it equals the number of questions exactly
    when the first answers are the correct answers, in order; and
    answering every question wrongly scores 0. *)
Theorem calculate_score_extremes (qs : list models.Question.t) answers :
  0 <= calculate_score qs answers
    <= Z.of_nat (Nat.min (length qs) (length answers))
  /\ (calculate_score qs answers = Z.of_nat (length qs) <->
      firstn (length qs) answers = map models.Question.answer qs)
  /\ calculate_score qs
       (map (fun q => negb (models.Question.answer q)) qs) = 0.
Proof.
  rewrite !calculate_score_rec. split; [apply score_rec_bounds|].
  split; [apply score_rec_full|].
  induction qs as [|q qs IH]; simpl; [reflexivity|].
  rewrite IH. now destruct (models.Question.answer q).
Qed.

(** X13: a successful [submit_quiz] appends exactly one submission row,
    holding all the submitted answers (also those beyond the last
    question), the score, the key of the resolved user and the key of the
    tenant; tenants, users and questions are as before, and one line is
    logged. *)
Theorem submit_quiz_records_submission tenant submission db db_tenant user :
  resolve_tenant db tenant = Some db_tenant ->
  resolve_user db (models.Tenant.id db_tenant)
    (QuizSubmission.username submission) = Some user ->
  tenant_questions db (models.Tenant.id db_tenant) <> [] ->
  let out := serve (submit_quiz tenant submission) db in
  let qs := tenant_questions db (models.Tenant.id db_tenant) in
  let row :=
    models.QuizSubmission.mk
      (next_id models.QuizSubmission.id (quiz_submissions db))
      (QuizSubmission.answers submission)
      (calculate_score qs (QuizSubmission.answers submission))
      (models.User.id user) (models.Tenant.id db_tenant) in
  db_after out =
    mkDB (tenants db) (users db) (questions db) (quiz_submissions db ++ [row])
  /\ length (logged out) = 1%nat
  /\ forall s, In s (quiz_submissions db) ->
               models.QuizSubmission.id s < models.QuizSubmission.id row.
Proof.
  intros Ht Hu Hqs out qs row. unfold out, row, qs.
  rewrite serve_submit_quiz, Ht, Hu.
  destruct (tenant_questions db _); [contradiction|].
  repeat split. intros s Hs. simpl. now apply next_id_above.
Qed.

(** X14: submissions are not limited to one per user: repeating a
    successful submission succeeds again with the same response, and the
    store then holds two rows with the same answers and score under
    consecutive keys. *)
Theorem submit_quiz_can_be_repeated tenant submission db db_tenant user :
  resolve_tenant db tenant = Some db_tenant ->
  resolve_user db (models.Tenant.id db_tenant)
    (QuizSubmission.username submission) = Some user ->
  tenant_questions db (models.Tenant.id db_tenant) <> [] ->
  let first := serve (submit_quiz tenant submission) db in
  let second := serve (submit_quiz tenant submission) (db_after first) in
  let score :=
    calculate_score (tenant_questions db (models.Tenant.id db_tenant))
      (QuizSubmission.answers submission) in
  let key := next_id models.QuizSubmission.id (quiz_submissions db) in
  response second = response first
  /\ quiz_submissions (db_after second) =
     (quiz_submissions db
      ++ [models.QuizSubmission.mk key (QuizSubmission.answers submission)
            score (models.User.id user) (models.Tenant.id db_tenant);
          models.QuizSubmission.mk (key + 1)
            (QuizSubmission.answers submission)
            score (models.User.id user) (models.Tenant.id db_tenant)])%list.
Proof.
  intros Ht Hu Hqs first second score key. unfold second, first, score, key.
  rewrite (serve_submit_quiz tenant submission db), Ht, Hu.
  destruct (tenant_questions db _) as [|q qs] eqn:Hq; [contradiction|].
  simpl db_after. rewrite serve_submit_quiz.
  change (resolve_tenant (mkDB (tenants db) _ _ _) ?n)
    with (resolve_tenant db n).
  change (resolve_user (mkDB _ (users db) _ _) ?i ?n)
    with (resolve_user db i n).
  change (tenant_questions (mkDB _ _ (questions db) _) ?i)
    with (tenant_questions db i).
  rewrite Ht, Hu, Hq. simpl. split; [reflexivity|].
  rewrite next_id_snoc by reflexivity. now rewrite <- app_assoc.
Qed.

(** X15: [submit_quiz] checks the tenant first, then the user, then the
    questions.  With no NUL character in the names: an unknown tenant
    gives "Tenant not found"; a known tenant in which the lookup finds no
    user of that name gives "User not found", also when a user of that
    name exists in another tenant and also when the tenant has no
    questions.  A NUL character in the tenant name, or in the username
    once the tenant is found, ends the request in a 500. *)
Theorem submit_quiz_error_order tenant submission db :
  (Str.has_nul tenant = false ->
   resolve_tenant db tenant = None ->
   serve (submit_quiz tenant submission) db =
     mkOutcome (Error 404 "Tenant not found") db [])
  /\ (forall db_tenant,
         resolve_tenant db tenant = Some db_tenant ->
         Str.has_nul (QuizSubmission.username submission) = false ->
         (forall u, In u (users db) ->
                    func.lower (models.User.username u)
                    = Str.lower (Str.strip (QuizSubmission.username submission)) ->
                    models.User.tenant_id u <> models.Tenant.id db_tenant) ->
         serve (submit_quiz tenant submission) db =
           mkOutcome (Error 404 "User not found") db [])
  /\ (Str.has_nul tenant = true
      \/ (Str.has_nul (QuizSubmission.username submission) = true
          /\ exists db_tenant, resolve_tenant db tenant = Some db_tenant) ->
      serve (submit_quiz tenant submission) db =
        mkOutcome (Error 500 "Internal Server Error") db []).
Proof.
  split; [|split].
  - intros Hnul Ht. now rewrite serve_submit_quiz, Ht, has_nul_key, Hnul.
  - intros db_tenant Ht Hnul Hother. rewrite serve_submit_quiz, Ht.
    destruct (resolve_user db _ _) as [u|] eqn:Hu;
      [|now rewrite has_nul_key, Hnul].
    destruct (resolve_user_in _ _ _ _ Hu) as (Hin & Htid & Hname).
    now destruct (Hother u Hin Hname).
  - intros [Hnul | (Hnul & db_tenant & Ht)]; rewrite serve_submit_quiz.
    + unfold resolve_tenant. now rewrite has_nul_key, Hnul.
    + rewrite Ht. unfold resolve_user. now rewrite has_nul_key, Hnul.
Qed.

(** ** Rows are only ever added *)

Lemma extends_refl db : extends db db.
Proof.
  exists [], [], [], []. rewrite !app_nil_r. now destruct db.
Qed.

Lemma extends_trans db1 db2 db3 :
  extends db1 db2 -> extends db2 db3 -> extends db1 db3.
Proof.
  intros (ts & us & qs & ss & ->) (ts' & us' & qs' & ss' & ->). simpl.
  exists (ts ++ ts')%list, (us ++ us')%list, (qs ++ qs')%list,
    (ss ++ ss')%list.
  now rewrite !app_assoc.
Qed.

Lemma transition_extends db db' : transition db db' -> extends db db'.
Proof.
  destruct 1; [apply extends_refl|..]; unfold extends.
  - eexists _, [], [], [].
    f_equal; first [reflexivity | symmetry; apply app_nil_r].
  - eexists [], _, [], [].
    f_equal; first [reflexivity | symmetry; apply app_nil_r].
  - eexists [], [], _, [].
    f_equal; first [reflexivity | symmetry; apply app_nil_r].
  - eexists [], [], [], _.
    f_equal; first [reflexivity | symmetry; apply app_nil_r].
Qed.

(** X16: no request deletes or changes a row: after any sequence of
    requests every table begins with the rows it had, in the same order,
    followed by the rows added since. *)
Theorem rows_are_only_added digest rs db :
  extends db (run digest rs db).
Proof.
  apply (run_keeps (extends db)); [|apply extends_refl].
  intros d d' Hstep Hd. eapply extends_trans; [exact Hd|].
  now apply transition_extends.
Qed.

(** ** Question bank: isolation and round trips *)

Lemma question_rows_other tid tid' first qs :
  tid <> tid' ->
  List.filter (question_of tid') (question_rows tid first qs) = [].
Proof.
  intros Hne. revert first. induction qs as [|q qs IH]; intros first; simpl;
    [reflexivity|].
  unfold question_of at 1. simpl.
  apply Z.eqb_neq in Hne. now rewrite Hne, IH.
Qed.

(** X17: [set_questions] for one tenant leaves the question set of every
    other tenant as it was, and with it what that tenant's admin view,
    student view and quiz scoring answer. *)
Theorem set_questions_touches_one_tenant
    tenant payload other db db_tenant db_other :
  resolve_tenant db tenant = Some db_tenant ->
  resolve_tenant db other = Some db_other ->
  models.Tenant.id db_other <> models.Tenant.id db_tenant ->
  let db1 := db_after (serve (set_questions tenant payload) db) in
  tenant_questions db1 (models.Tenant.id db_other)
  = tenant_questions db (models.Tenant.id db_other)
  /\ response (serve (get_admin_questions other) db1)
     = response (serve (get_admin_questions other) db)
  /\ response (serve (get_questions other) db1)
     = response (serve (get_questions other) db)
  /\ forall submission,
      response (serve (submit_quiz other submission) db1)
      = response (serve (submit_quiz other submission) db).
Proof.
  intros Ht Ho Hne db1.
  assert (resolve_tenant db1 other = Some db_other
          /\ users db1 = users db
          /\ tenant_questions db1 (models.Tenant.id db_other)
             = tenant_questions db (models.Tenant.id db_other))
    as (Ho1 & Hu1 & Hq1).
  { unfold db1. rewrite serve_set_questions, Ht.
    destruct (tenant_questions db (models.Tenant.id db_tenant));
      [|now repeat split].
    destruct (payload !! "questions"); [|now repeat split].
    destruct (existsb _ _); [now repeat split|].
    repeat split; [exact Ho|].
    unfold tenant_questions. simpl. rewrite List.filter_app.
    rewrite question_rows_other by congruence. apply app_nil_r. }
  split; [exact Hq1|].
  rewrite !serve_get_admin_questions, !serve_get_questions, Ho, Ho1, Hq1.
  repeat split. intros submission.
  rewrite !serve_submit_quiz, Ho, Ho1, Hq1. unfold resolve_user.
  rewrite Hu1. destruct (Str.has_nul _); [reflexivity|].
  destruct (List.find _ (users db)); [|reflexivity].
  now destruct (tenant_questions db _).
Qed.

(** X18: what [set_questions] stores on a tenant without questions, from
    texts that hold no NUL character, is what the views give back: the
    admin view lists the new rows with trimmed text and the submitted
    answers in the submitted order, under consecutive keys; the student
    view lists the same rows without answers; and a later [set_questions]
    answers with the admin view's list when that list is not empty. *)
Theorem set_questions_then_views tenant payload db db_tenant new_questions :
  resolve_tenant db tenant = Some db_tenant ->
  tenant_questions db (models.Tenant.id db_tenant) = [] ->
  payload !! "questions" = Some new_questions ->
  existsb (fun q => Str.has_nul (QuestionCreate.question q)) new_questions
  = false ->
  let db1 := db_after (serve (set_questions tenant payload) db) in
  let first := next_id models.Question.id (questions db) in
  let rows := question_rows (models.Tenant.id db_tenant) first new_questions in
  let admin_view :=
    map (fun q => JDict [("id", JInt (models.Question.id q));
                         ("question", JStr (models.Question.question q));
                         ("answer", JBool (models.Question.answer q))]) rows in
  response (serve (get_admin_questions tenant) db1) = Ok (JList admin_view)
  /\ response (serve (get_questions tenant) db1)
     = Ok (JList (map without_answer admin_view))
  /\ (new_questions <> [] ->
      forall payload',
        response (serve (set_questions tenant payload') db1)
        = Ok (JDict
            [("message", JStr "Questions already exist for this tenant");
             ("questions", JList admin_view)]))
  /\ map (fun q => (models.Question.id q, models.Question.question q,
                    models.Question.answer q)) rows
     = map (fun iq => (first + Z.of_nat (fst iq),
                       Str.strip (QuestionCreate.question (snd iq)),
                       QuestionCreate.answer (snd iq)))
           (enumerate new_questions).
Proof.
  intros Ht Hnone Hpayload Hnul db1 first rows admin_view.
  destruct (set_questions_first tenant payload db db_tenant new_questions
              Ht Hnone Hpayload Hnul) as [Hout Hqs].
  assert (resolve_tenant db1 tenant = Some db_tenant
          /\ tenant_questions db1 (models.Tenant.id db_tenant) = rows)
    as (Ht1 & Hq1).
  { unfold db1. rewrite Hout. split; [exact Ht | exact Hqs]. }
  split; [|split; [|split]].
  - now rewrite serve_get_admin_questions, Ht1, Hq1.
  - rewrite serve_get_questions, Ht1, Hq1. unfold admin_view.
    now rewrite map_map.
  - intros Hnonempty payload'. rewrite serve_set_questions, Ht1, Hq1.
    fold admin_view. destruct rows eqn:Hrows; [|reflexivity].
    apply (f_equal (@length _)) in Hrows. unfold rows in Hrows.
    rewrite question_rows_length in Hrows. now destruct new_questions.
  - unfold rows, enumerate. generalize first. clear.
    induction new_questions as [|q qs IH]; intros first; simpl;
      [reflexivity|].
    rewrite IH, combine_seq_shift, map_map. simpl.
    apply (f_equal2 cons).
    + now rewrite Z.add_0_r.
    + apply map_ext. intros [i x]. simpl. do 2 f_equal. lia.
Qed.

(** X19: a payload without a [questions] entry is an internal error (500)
    on a tenant without questions and changes nothing; on a tenant that
    has questions the payload is not looked at and the request succeeds. *)
Theorem set_questions_without_questions_entry tenant payload db db_tenant :
  resolve_tenant db tenant = Some db_tenant ->
  payload !! "questions" = None ->
  let out := serve (set_questions tenant payload) db in
  (tenant_questions db (models.Tenant.id db_tenant) = [] ->
   out = mkOutcome (Error 500 "Internal Server Error") db [])
  /\ (tenant_questions db (models.Tenant.id db_tenant) <> [] ->
      (exists body, response out = Ok body) /\ db_after out = db).
Proof.
  intros Ht Hpayload out. unfold out. rewrite serve_set_questions, Ht.
  split.
  - intros ->. now rewrite Hpayload.
  - intros Hqs. destruct (tenant_questions db _); [contradiction|].
    split; [eexists|]; reflexivity.
Qed.

(** X20: a handler that takes the tenant from the path sees it only
    through its trimmed, lower-cased form: two spellings with the same
    form give the same outcome for the tenant check, both question views,
    [set_questions] and [submit_quiz]. *)
Theorem tenant_spelling_does_not_matter a b db :
  Str.lower (Str.strip a) = Str.lower (Str.strip b) ->
  serve (check_tenant a) db = serve (check_tenant b) db
  /\ serve (get_questions a) db = serve (get_questions b) db
  /\ serve (get_admin_questions a) db = serve (get_admin_questions b) db
  /\ (forall payload,
         serve (set_questions a payload) db
         = serve (set_questions b payload) db)
  /\ (forall submission,
         serve (submit_quiz a submission) db
         = serve (submit_quiz b submission) db).
Proof.
  intros Hkey. pose proof (resolve_tenant_same_key db a b Hkey) as Hsame.
  repeat split; intros;
    rewrite ?serve_check_tenant, ?serve_get_questions,
      ?serve_get_admin_questions, ?serve_set_questions, ?serve_submit_quiz,
      Hsame, ?Hkey; reflexivity.
Qed.

(** X21: the two question views agree: for every tenant name the student
    view fails exactly when the admin view fails, with the same error, and
    otherwise is the admin view with the [answer] entry removed from each
    element. *)
Theorem student_view_is_admin_view_without_answers tenant db :
  match response (serve (get_admin_questions tenant) db) with
  | Ok (JList items) =>
      response (serve (get_questions tenant) db)
      = Ok (JList (map without_answer items))
  | Ok _ => False
  | Error status_code detail =>
      response (serve (get_questions tenant) db) = Error status_code detail
  end.
Proof.
  rewrite serve_get_admin_questions, serve_get_questions.
  destruct (resolve_tenant db tenant);
    [|destruct (Str.has_nul _); reflexivity].
  simpl. now rewrite map_map.
Qed.

(** ** What stays true over any sequence of requests *)

Lemma transition_keeps_questions db db' tid :
  transition db db' ->
  tenant_questions db tid <> [] ->
  tenant_questions db' tid = tenant_questions db tid.
Proof.
  destruct 1 as [| | |tenant new_questions _ Hnone|]; try reflexivity.
  intros Hset. unfold tenant_questions. simpl. rewrite List.filter_app.
  destruct (Z.eq_dec (models.Tenant.id tenant) tid) as [<- | Hne];
    [contradiction|].
  rewrite question_rows_other by exact Hne. apply app_nil_r.
Qed.

(** X22: once a tenant has questions they are frozen: whatever requests
    follow, for whatever tenants and with whatever payloads, its question
    set stays exactly the same. *)
Theorem question_set_is_frozen digest rs db tid :
  tenant_questions db tid <> [] ->
  tenant_questions (run digest rs db) tid = tenant_questions db tid.
Proof.
  intros Hset.
  apply (run_keeps (fun d => tenant_questions d tid = tenant_questions db tid));
    [|reflexivity].
  intros d d' Hstep Hd. rewrite <- Hd.
  apply transition_keeps_questions; [exact Hstep | now rewrite Hd].
Qed.

Lemma extends_resolve_tenant db db' name t :
  extends db db' ->
  resolve_tenant db name = Some t -> resolve_tenant db' name = Some t.
Proof.
  intros (ts & us & qs & ss & ->). unfold resolve_tenant. simpl.
  destruct (Str.has_nul _); [discriminate|].
  intros Hfound. now rewrite find_app, Hfound.
Qed.

Lemma extends_resolve_user db db' tid name u :
  extends db db' ->
  resolve_user db tid name = Some u -> resolve_user db' tid name = Some u.
Proof.
  intros (ts & us & qs & ss & ->). unfold resolve_user. simpl.
  destruct (Str.has_nul _); [discriminate|].
  intros Hfound. now rewrite find_app, Hfound.
Qed.

Lemma run_extends digest rs db : extends db (run digest rs db).
Proof.
  revert db. induction rs as [|r rs IH]; intros db; simpl.
  - apply extends_refl.
  - eapply extends_trans; [|apply IH].
    apply transition_extends, handle_transition.
Qed.

(** X23: accounts are never altered: a name that resolves to a tenant or
    to a user keeps resolving to the same row after any sequence of
    requests, and credentials that log in keep logging in. *)
Theorem accounts_are_never_altered digest rs db :
  (forall name t,
      resolve_tenant db name = Some t ->
      resolve_tenant (run digest rs db) name = Some t)
  /\ (forall tid name u,
         resolve_user db tid name = Some u ->
         resolve_user (run digest rs db) tid name = Some u)
  /\ (forall auth body,
         response (serve (login digest auth) db) = Ok body ->
         response (serve (login digest auth) (run digest rs db)) = Ok body).
Proof.
  pose proof (run_extends digest rs db) as Hext.
  split; [|split].
  - intros name t. now apply extends_resolve_tenant.
  - intros tid name u. now apply extends_resolve_user.
  - intros auth body. rewrite !serve_login.
    destruct (resolve_tenant db _) as [t|] eqn:Ht;
      [|destruct (Str.has_nul _); discriminate].
    destruct (resolve_user db _ _) as [u|] eqn:Hu;
      [|destruct (Str.has_nul _); discriminate].
    rewrite (extends_resolve_tenant _ _ _ _ Hext Ht).
    rewrite (extends_resolve_user _ _ _ _ _ Hext Hu).
    now destruct (String.eqb _ _).
Qed.

End Verification.

(** * The statements at work on a small store

    The store of the examples is a database under the C locale. *)

#[global] Existing Instance c_locale.

Lemma submit_quiz_counts_matching_indices_witness :
  response (serve (submit_quiz " ACME" (QuizSubmission.mk "alice " [true; false; false]))
              db_quiz) =
  Ok (JDict [("message", JStr "You scored 2/3");
             ("username", JStr "Alice");
             ("score", JInt 2);
             ("total", JInt 3)]).
Proof.
  refine (proj1 (submit_quiz_counts_matching_indices (sql := c_locale) " ACME"
                   (QuizSubmission.mk "alice " [true; false; false])
                   db_quiz acme alice _ _ _)).
  - reflexivity.
  - reflexivity.
  - discriminate.
Defined.

Lemma submit_quiz_without_questions_witness :
  let out := serve (submit_quiz "acme" (QuizSubmission.mk "ALICE" [true]))
               db_alice in
  response out = Error 404 "No questions found for this tenant"
  /\ db_after out = db_alice
  /\ quiz_submissions (db_after out) = quiz_submissions db_alice.
Proof.
  refine (submit_quiz_without_questions (sql := c_locale) "acme"
            (QuizSubmission.mk "ALICE" [true]) db_alice acme alice _ _ _);
    reflexivity.
Defined.

Lemma student_view_hides_answers_witness :
  resolve_tenant db_quiz "Acme" = Some acme
  /\ serve (get_questions "Acme") db_quiz_flipped =
     mkOutcome
       (Ok (JList [JDict [("id", JInt 1); ("question", JStr "Q1")];
                   JDict [("id", JInt 2); ("question", JStr "Q2")];
                   JDict [("id", JInt 3); ("question", JStr "Q3")]]))
       db_quiz_flipped [].
Proof.
  split; [reflexivity|].
  apply (proj1 (proj2 (student_view_hides_answers (sql := c_locale) "Acme" db_quiz acme
                         eq_refl))).
  unfold same_but_answers, same_but_answer. simpl.
  repeat split; repeat constructor.
Defined.

Lemma error_leaves_store_unchanged_witness :
  db_after (handle toy_digest
              (PostSignup (AuthRequest.mk "ALICE " "x" "acme")) db_quiz)
  = db_quiz
  /\ logged (handle toy_digest
               (PostSignup (AuthRequest.mk "ALICE " "x" "acme")) db_quiz)
     = [].
Proof.
  exact (error_leaves_store_unchanged (sql := c_locale) toy_digest
           (PostSignup (AuthRequest.mk "ALICE " "x" "acme")) db_quiz
           400 "Username already exists in this tenant" eq_refl).
Defined.

Lemma read_only_requests_do_not_write_witness :
  db_after (handle toy_digest
              (PostLogin (AuthRequest.mk "alice" "s3cret" "acme")) db_quiz)
  = db_quiz.
Proof.
  exact (read_only_requests_do_not_write (sql := c_locale) toy_digest
           (PostLogin (AuthRequest.mk "alice" "s3cret" "acme")) db_quiz
           eq_refl).
Defined.

Lemma tenant_names_stay_unique_witness :
  names_unique
    (run toy_digest
       [PostTenantCreate (TenantCreate.mk "Initech" "I");
        PostTenantCreate (TenantCreate.mk " INITECH " "again");
        PostSignup (AuthRequest.mk "bob" "pw" "initech")]
       db_tenants).
Proof.
  apply (proj2 (tenant_names_stay_unique (sql := c_locale) toy_digest)).
  unfold names_unique. simpl.
  repeat constructor; simpl; intuition discriminate.
Defined.

Lemma usernames_stay_unique_per_tenant_witness :
  usernames_unique
    (run toy_digest
       [PostSignup (AuthRequest.mk "bob" "pw" "acme");
        PostSignup (AuthRequest.mk " BOB" "pw2" "Acme");
        PostSignup (AuthRequest.mk "Bob" "pw3" "globex")]
       db_alice).
Proof.
  apply (proj2 (usernames_stay_unique_per_tenant (sql := c_locale) toy_digest)).
  unfold usernames_unique. simpl.
  repeat constructor; simpl; intuition discriminate.
Defined.

Lemma stored_text_stays_trimmed_witness :
  text_trimmed
    (run toy_digest
       [PostTenantCreate (TenantCreate.mk "  Initech " " I ");
        PostSetQuestions "initech"
          {["questions" := [QuestionCreate.mk " Is it? " true]]}]
       db_alice).
Proof.
  apply (proj2 (stored_text_stays_trimmed (sql := c_locale) toy_digest)).
  unfold text_trimmed, trimmed. simpl. repeat constructor.
Defined.

Lemma references_stay_valid_witness :
  references_ok
    (run toy_digest
       [PostSubmit "acme" (QuizSubmission.mk "alice" [true; true])]
       db_quiz).
Proof.
  apply (proj2 (references_stay_valid (sql := c_locale) toy_digest)).
  unfold references_ok. simpl.
  repeat split; repeat constructor; exists acme; simpl; auto.
Defined.

Lemma stored_scores_stay_bounded_witness :
  scores_bounded
    (run toy_digest
       [PostSubmit "acme" (QuizSubmission.mk "alice" [true]);
        PostSubmit "acme" (QuizSubmission.mk "alice" [true; false; true; true])]
       db_quiz).
Proof.
  apply (proj2 (stored_scores_stay_bounded (sql := c_locale) toy_digest)). constructor.
Defined.

Lemma submit_quiz_records_submission_witness :
  db_after
    (serve (submit_quiz "acme"
              (QuizSubmission.mk "alice" [true; true; true; false; false]))
       db_quiz)
  = mkDB [acme; globex] [alice] three_questions
      [models.QuizSubmission.mk 1 [true; true; true; false; false] 2 1 1].
Proof.
  exact (proj1 (submit_quiz_records_submission (sql := c_locale) "acme"
                  (QuizSubmission.mk "alice" [true; true; true; false; false])
                  db_quiz acme alice eq_refl eq_refl ltac:(discriminate))).
Defined.

Lemma submit_quiz_can_be_repeated_witness :
  let first :=
    serve (submit_quiz "acme" (QuizSubmission.mk "alice" [true])) db_quiz in
  quiz_submissions
    (db_after
       (serve (submit_quiz "acme" (QuizSubmission.mk "alice" [true]))
          (db_after first)))
  = [models.QuizSubmission.mk 1 [true] 1 1 1;
     models.QuizSubmission.mk 2 [true] 1 1 1].
Proof.
  exact (proj2 (submit_quiz_can_be_repeated (sql := c_locale) "acme"
                  (QuizSubmission.mk "alice" [true])
                  db_quiz acme alice eq_refl eq_refl ltac:(discriminate))).
Defined.

Lemma set_questions_touches_one_tenant_witness :
  response
    (serve (get_admin_questions "acme")
       (db_after
          (serve (set_questions "globex"
                    {["questions" := [QuestionCreate.mk "G1" false]]})
             db_quiz)))
  = response (serve (get_admin_questions "acme") db_quiz).
Proof.
  exact (proj1 (proj2 (set_questions_touches_one_tenant (sql := c_locale) "globex"
                         {["questions" := [QuestionCreate.mk "G1" false]]}
                         "acme" db_quiz globex acme eq_refl eq_refl
                         ltac:(discriminate)))).
Defined.

Lemma set_questions_without_questions_entry_witness :
  serve (set_questions "acme" {["question" := []]}) db_alice
  = mkOutcome (Error 500 "Internal Server Error") db_alice [].
Proof.
  exact (proj1 (set_questions_without_questions_entry (sql := c_locale) "acme"
                  {["question" := []]} db_alice acme eq_refl eq_refl)
           eq_refl).
Defined.

Lemma tenant_spelling_does_not_matter_witness :
  serve (get_questions "  ACME ") db_quiz = serve (get_questions "acme") db_quiz.
Proof.
  exact (proj1 (proj2 (tenant_spelling_does_not_matter (sql := c_locale) "  ACME " "acme"
                         db_quiz eq_refl))).
Defined.

Lemma question_set_is_frozen_witness :
  tenant_questions
    (run toy_digest
       [PostSetQuestions "acme"
          {["questions" := [QuestionCreate.mk "New" false]]};
        PostTenantCreate (TenantCreate.mk "Initech" "I");
        PostSetQuestions "initech"
          {["questions" := [QuestionCreate.mk "Other" true]]};
        PostSetQuestions "ACME " {["questions" := []]}]
       db_quiz) 1
  = three_questions.
Proof.
  exact (question_set_is_frozen (sql := c_locale) toy_digest _ db_quiz 1 ltac:(discriminate)).
Defined.

Lemma accounts_are_never_altered_witness :
  response
    (serve (login toy_digest (AuthRequest.mk "alice" "s3cret" "acme"))
       (run toy_digest
          [PostSignup (AuthRequest.mk "ALICE" "other" "acme");
           PostSignup (AuthRequest.mk "alice" "other" "globex");
           PostTenantCreate (TenantCreate.mk "acme " "again")]
          db_alice))
  = Ok (JDict [("message", JStr "Login successful")]).
Proof.
  exact (proj2 (proj2 (accounts_are_never_altered (sql := c_locale) toy_digest _ db_alice))
           (AuthRequest.mk "alice" "s3cret" "acme") _ eq_refl).
Defined.

Lemma create_tenant_twice_case_mismatch_witness :
  let db1 :=
    db_after (serve (create_tenant (TenantCreate.mk e_acute "E")) db_tenants) in
  db1 = mkDB [acme; globex; models.Tenant.mk 3 e_acute "E"] [] [] []
  /\ serve (create_tenant (TenantCreate.mk e_acute "E")) db1
     = mkOutcome (Error 500 "Internal Server Error") db1 [].
Proof.
  split; [reflexivity|].
  refine (proj2 (create_tenant_twice_case_mismatch (sql := c_locale)
                   (TenantCreate.mk e_acute "E") (TenantCreate.mk e_acute "E")
                   db_tenants
                   (JDict [("message", JStr "Tenant created successfully");
                           ("tenant_id", JInt 3);
                           ("name", JStr e_acute)]) _ eq_refl _) eq_refl).
  - exists "", e_acute, "", "", e_acute, "". now repeat split.
  - discriminate.
Defined.

Lemma signup_twice_case_mismatch_witness :
  let db1 :=
    db_after (serve (signup toy_digest (AuthRequest.mk e_acute "pw" "acme"))
                db_alice) in
  serve (signup toy_digest (AuthRequest.mk e_acute "pw" "acme")) db1
  = mkOutcome (Error 500 "Internal Server Error") db1 [].
Proof.
  refine (proj2 (signup_twice_case_mismatch (sql := c_locale) toy_digest
                   (AuthRequest.mk e_acute "pw" "acme")
                   (AuthRequest.mk e_acute "pw" "acme") db_alice
                   (JDict [("message", JStr "Signup successful");
                           ("tenant", JStr "Acme");
                           ("username", JStr e_acute)])
                   eq_refl eq_refl eq_refl _) eq_refl).
  discriminate.
Defined.

Lemma login_outcomes_witness :
  serve (login toy_digest (AuthRequest.mk "alice" "s3cret" "nowhere"))
    db_alice
  = mkOutcome (Error 404 "Tenant not found") db_alice []
  /\ serve (login toy_digest (AuthRequest.mk "alice" "guess" "acme")) db_alice
     = mkOutcome (Error 401 "Invalid credentials") db_alice []
  /\ response
       (serve (login toy_digest (AuthRequest.mk " Bob" "pw" "ACME"))
          (db_after
             (serve (signup toy_digest (AuthRequest.mk " Bob" "pw" "ACME"))
                db_alice)))
     = Ok (JDict [("message", JStr "Login successful")]).
Proof.
  split; [|split].
  - exact (proj1 (login_outcomes (sql := c_locale) toy_digest
                    (AuthRequest.mk "alice" "s3cret" "nowhere") db_alice)
             eq_refl eq_refl).
  - refine (proj1 (proj2 (login_outcomes (sql := c_locale) toy_digest
                            (AuthRequest.mk "alice" "guess" "acme") db_alice))
              acme eq_refl _).
    right. exists alice. split; [reflexivity | discriminate].
  - exact (proj1 (proj2 (proj2 (proj2 (login_outcomes (sql := c_locale) toy_digest
                                         (AuthRequest.mk " Bob" "pw" "ACME")
                                         db_alice)))
                    (JDict [("message", JStr "Signup successful");
                            ("tenant", JStr "Acme");
                            ("username", JStr "Bob")])
                    eq_refl eq_refl)).
Defined.

(** C5, against the claim as stated: no tenant matches the name, and the
    answer is a 500, not a 404. *)
Lemma login_unknown_tenant_with_nul :
  let out :=
    serve (login toy_digest (AuthRequest.mk "alice" "s3cret" with_nul))
      db_alice in
  Forall (fun t => func.lower (models.Tenant.name t)
                   <> Str.lower (Str.strip with_nul)) (tenants db_alice)
  /\ response out = Error 500 "Internal Server Error"
  /\ response out <> Error 404 "Tenant not found".
Proof.
  split; [repeat constructor; discriminate | split; [reflexivity|]].
  discriminate.
Qed.

Lemma login_after_signup_case_mismatch_witness :
  let db1 :=
    db_after (serve (signup toy_digest (AuthRequest.mk e_acute "pw" "acme"))
                db_alice) in
  serve (login toy_digest (AuthRequest.mk e_acute "pw" "acme")) db1
  = mkOutcome (Error 401 "Invalid credentials") db1 [].
Proof.
  refine (login_after_signup_case_mismatch (sql := c_locale) toy_digest
            (AuthRequest.mk e_acute "pw" "acme") db_alice
            (JDict [("message", JStr "Signup successful");
                    ("tenant", JStr "Acme");
                    ("username", JStr e_acute)])
            eq_refl _ "pw").
  discriminate.
Defined.

Lemma submit_quiz_after_signup_case_mismatch_witness :
  let db1 :=
    db_after (serve (signup toy_digest (AuthRequest.mk e_acute "pw" "acme"))
                db_quiz) in
  serve (submit_quiz "acme" (QuizSubmission.mk e_acute [true; false; true]))
    db1
  = mkOutcome (Error 404 "User not found") db1 [].
Proof.
  refine (submit_quiz_after_signup_case_mismatch (sql := c_locale) toy_digest
            (AuthRequest.mk e_acute "pw" "acme") db_quiz
            (JDict [("message", JStr "Signup successful");
                    ("tenant", JStr "Acme");
                    ("username", JStr e_acute)])
            eq_refl _ [true; false; true]).
  discriminate.
Defined.

Lemma set_questions_sets_once_witness :
  serve (set_questions "acme"
           {["questions" := [QuestionCreate.mk "Other" false]]}) db_quiz
  = mkOutcome
      (Ok (JDict
         [("message", JStr "Questions already exist for this tenant");
          ("questions",
           JList [JDict [("id", JInt 1); ("question", JStr "Q1");
                         ("answer", JBool true)];
                  JDict [("id", JInt 2); ("question", JStr "Q2");
                         ("answer", JBool false)];
                  JDict [("id", JInt 3); ("question", JStr "Q3");
                         ("answer", JBool true)]])]))
      db_quiz []
  /\ tenant_questions
       (db_after
          (serve (set_questions "acme"
                    {["questions" := [QuestionCreate.mk " Q1 " true;
                                      QuestionCreate.mk "Q2" false]]})
             db_alice)) 1
     = [models.Question.mk 1 "Q1" true 1; models.Question.mk 2 "Q2" false 1].
Proof.
  split.
  - refine (proj1 (set_questions_sets_once (sql := c_locale) "acme" _ db_quiz acme eq_refl) _).
    discriminate.
  - exact (proj1 (proj2 (proj2
             (proj1 (proj2 (set_questions_sets_once (sql := c_locale) "acme"
                              {["questions" := [QuestionCreate.mk " Q1 " true;
                                                QuestionCreate.mk "Q2" false]]}
                              db_alice acme eq_refl))
                eq_refl _ eq_refl eq_refl)))).
Defined.

(** C2, against the claim as stated: the tenant has no questions, two are
    given, and none is inserted. *)
Lemma set_questions_with_nul_inserts_nothing :
  let out :=
    serve (set_questions "acme"
             {["questions" := [QuestionCreate.mk "ok" true;
                               QuestionCreate.mk with_nul false]]})
      db_alice in
  resolve_tenant db_alice "acme" = Some acme
  /\ tenant_questions db_alice 1 = []
  /\ response out = Error 500 "Internal Server Error"
  /\ tenant_questions (db_after out) 1 = [].
Proof. now repeat split. Qed.

Lemma set_questions_empty_list_does_not_freeze_witness :
  let out := serve (set_questions "acme" {["questions" := []]}) db_alice in
  response out = Ok (JDict [("message", JStr "0 questions set for Acme")])
  /\ db_after out = db_alice
  /\ tenant_questions
       (db_after
          (serve (set_questions "acme"
                    {["questions" := [QuestionCreate.mk " Q1 " true]]})
             (db_after out))) 1
     = [models.Question.mk 1 "Q1" true 1].
Proof.
  pose proof (set_questions_empty_list_does_not_freeze (sql := c_locale) "acme"
                {["questions" := []]} db_alice acme eq_refl eq_refl eq_refl)
    as (Hresp & Hdb & _ & Hlater).
  split; [exact Hresp|]. split; [exact Hdb|].
  exact (proj1 (proj2 (Hlater {["questions" := [QuestionCreate.mk " Q1 " true]]}
                         [QuestionCreate.mk " Q1 " true] eq_refl
                         ltac:(discriminate) eq_refl))).
Defined.

(** C9, against the claim as stated: after the empty list, a later
    non-empty list does not populate the bank. *)
Lemma set_questions_later_list_with_nul :
  let db1 :=
    db_after (serve (set_questions "acme" {["questions" := []]}) db_alice) in
  let out :=
    serve (set_questions "acme"
             {["questions" := [QuestionCreate.mk "ok" true;
                               QuestionCreate.mk with_nul false]]}) db1 in
  response out = Error 500 "Internal Server Error"
  /\ tenant_questions (db_after out) 1 = [].
Proof. now repeat split. Qed.

Lemma check_tenant_reports_presence_witness :
  (exists found,
      serve (check_tenant " ACME ") db_tenants =
        mkOutcome (Ok (JDict [("exists", JBool found)])) db_tenants []
      /\ (found = true <->
          exists t, In t (tenants db_tenants)
                    /\ func.lower (models.Tenant.name t) = "acme"))
  /\ serve (check_tenant with_nul) db_tenants =
       mkOutcome (Error 500 "Internal Server Error") db_tenants [].
Proof.
  split.
  - exact (proj1 (check_tenant_reports_presence (sql := c_locale) " ACME " db_tenants) eq_refl).
  - exact (proj2 (check_tenant_reports_presence (sql := c_locale) with_nul db_tenants) eq_refl).
Defined.

Lemma create_tenant_agrees_with_check_witness :
  serve (create_tenant (TenantCreate.mk " ACME" "Again")) db_tenants
  = mkOutcome (Error 400 "Tenant ' ACME' already exists") db_tenants []
  /\ response
       (serve (check_tenant "initech  ")
          (db_after
             (serve (create_tenant (TenantCreate.mk "IniTech" "Initech"))
                db_tenants)))
     = Ok (JDict [("exists", JBool true)]).
Proof.
  split.
  - exact (proj1 (proj1 (create_tenant_agrees_with_check (sql := c_locale)
                           (TenantCreate.mk " ACME" "Again") db_tenants))
             eq_refl).
  - exact (proj2 (proj2 (create_tenant_agrees_with_check (sql := c_locale)
                           (TenantCreate.mk "IniTech" "Initech") db_tenants))
             (JDict [("message", JStr "Tenant created successfully");
                     ("tenant_id", JInt 3);
                     ("name", JStr "IniTech")])
             eq_refl eq_refl "initech  " eq_refl).
Defined.


Lemma stored_names_resolve_witness :
  response
    (serve (login toy_digest (AuthRequest.mk "Alice" " s3cret " "Acme"))
       db_quiz)
  = Ok (JDict [("message", JStr "Login successful")]).
Proof.
  refine (proj2 (proj2 (stored_names_resolve (sql := c_locale) toy_digest db_quiz _))
            acme alice " s3cret " _ _ eq_refl eq_refl).
  - unfold plainly_named, plain. simpl.
    repeat split; repeat constructor; simpl; intuition discriminate.
  - now left.
  - now left.
Defined.

Lemma submit_quiz_error_order_witness :
  serve (submit_quiz "initech" (QuizSubmission.mk "alice" [true])) db_quiz
  = mkOutcome (Error 404 "Tenant not found") db_quiz []
  /\ serve (submit_quiz "globex" (QuizSubmission.mk "alice" [true])) db_quiz
     = mkOutcome (Error 404 "User not found") db_quiz []
  /\ serve (submit_quiz "acme" (QuizSubmission.mk with_nul [true])) db_quiz
     = mkOutcome (Error 500 "Internal Server Error") db_quiz [].
Proof.
  split; [|split].
  - exact (proj1 (submit_quiz_error_order (sql := c_locale) "initech"
                    (QuizSubmission.mk "alice" [true]) db_quiz)
             eq_refl eq_refl).
  - refine (proj1 (proj2 (submit_quiz_error_order (sql := c_locale) "globex"
                            (QuizSubmission.mk "alice" [true]) db_quiz))
              globex eq_refl eq_refl _).
    intros u [<- | []] _. discriminate.
  - refine (proj2 (proj2 (submit_quiz_error_order (sql := c_locale) "acme"
                            (QuizSubmission.mk with_nul [true]) db_quiz)) _).
    right. split; [reflexivity | now exists acme].
Defined.

Lemma set_questions_then_views_witness :
  response
    (serve (get_admin_questions "ACME")
       (db_after
          (serve (set_questions "acme"
                    {["questions" := [QuestionCreate.mk " One " true;
                                      QuestionCreate.mk "Two" false]]})
             db_alice)))
  = Ok (JList [JDict [("id", JInt 1); ("question", JStr "One");
                      ("answer", JBool true)];
               JDict [("id", JInt 2); ("question", JStr "Two");
                      ("answer", JBool false)]]).
Proof.
  exact (proj1 (set_questions_then_views (sql := c_locale) "acme"
                  {["questions" := [QuestionCreate.mk " One " true;
                                    QuestionCreate.mk "Two" false]]}
                  db_alice acme _ eq_refl eq_refl eq_refl eq_refl)).
Defined.
